(** * Sensor fusion core of frdm-kl25z-marg-fusion

    A shallow embedding of [Sources/fusion/sensor_fusion.c]: two coupled
    6-state Kalman filters (attitude and orientation) on Q16.16 numbers,
    their bootstrap, prediction, correction and the quaternion extraction.

    The process-wide singletons of the C unit are collected in one record,
    [fusion_state], which every function takes and returns.  An [assert]
    of the [matrix_set] macro that fails stops the program: the functions
    that use the macro return [option], and [None] is the fatal stop.

    The fixed-point, matrix and Kalman libraries (fixmath.h, fixvector3d.h,
    fixmatrix.h, fixkalman.h) are not part of the sources; the driver is
    embedded over an interface, [MathKernel], and a reference instance of
    it is given further down for evaluation on concrete inputs. *)

From stdpp Require Import gmap.
From Stdlib Require Import ZArith Lia.

Local Open Scope Z_scope.

(** ** Q16.16 scalars *)

(** [fix16_t] is [int32_t]; the embedding carries it as [Z]. *)
Abbreviation fix16_t := Z (only parsing).

(** Two's-complement wrap-around of a 32-bit signed integer. *)
Definition wrap32 (v : Z) : Z := (v + 2 ^ 31) mod 2 ^ 32 - 2 ^ 31.

(** The unary minus of C on a [fix16_t]. *)
Definition neg32 (v : fix16_t) : fix16_t := wrap32 (- v).

(** Modelled from the spec: the macro [F16] of fixmath.h, which is not under
    src/.  Q16.16 has [1.0 = 0x00010000]; the decimal constant [num/den] is
    scaled by 65536 and rounded to the nearest integer, away from zero. *)
Definition F16 (num den : Z) : fix16_t :=
  if 0 <=? num
  then (2 * 65536 * num + den) / (2 * den)
  else - ((2 * 65536 * (- num) + den) / (2 * den)).

(** ** Measurement covariance definitions *)

Definition initial_r_axis : fix16_t := F16 5 100.
Definition initial_r_projection : fix16_t := F16 2 100.
Definition initial_r_gyro : fix16_t := F16 2 100.
(** [TEST_ENABLED] is 0, so [TEST_ACCEL] is undefined and [q_axis] is 0. *)
Definition q_axis : fix16_t := F16 0 1.
Definition q_gyro : fix16_t := F16 1 1.
Definition alpha1 : fix16_t := F16 5 1.
Definition alpha2 : fix16_t := F16 8 10.
Definition attitude_threshold : fix16_t := F16 14 100.
Definition singularity_cos_threshold : fix16_t := F16 17365 100000.

Definition KF_ATTITUDE_STATES : nat := 6.
Definition KF_ORIENTATION_STATES : nat := 6.
Definition KFM_ACCEL : nat := 6.
Definition KFM_MAGNETO : nat := 6.
Definition KFM_GYRO : nat := 3.

Definition F16_ONE : fix16_t := F16 1 1.
Definition F16_ONE_HALF : fix16_t := F16 5 10.

(** ** Data model *)

(** [v3d]: a triple of Q16.16 scalars. *)
Record v3d := mk_v3d { v3d_x : fix16_t; v3d_y : fix16_t; v3d_z : fix16_t }.

(** [qf16]: a quaternion, real part first. *)
Record qf16 := mk_qf16
  { qf16_a : fix16_t; qf16_b : fix16_t; qf16_c : fix16_t; qf16_d : fix16_t }.

(** [mf16]: a dense matrix with its dimensions and its error-flag word.
    The storage [data[FIXMATRIX_MAX_SIZE][FIXMATRIX_MAX_SIZE]] is a finite
    map from (row, column) to the cell; a cell that was never written reads
    0, as in static storage. *)
Record mf16 := mk_mf16
  { rows : nat; columns : nat; errors : Z; data : gmap (nat * nat) Z }.

Definition mf16_get (m : mf16) (row column : nat) : fix16_t :=
  default 0 (data m !! (row, column)).

(** [m->data[row][column] = value], without any check. *)
Definition mf16_put (m : mf16) (row column : nat) (value : fix16_t) : mf16 :=
  {| rows := rows m; columns := columns m; errors := errors m;
     data := <[(row, column) := value]> (data m) |}.

(** A matrix of static storage before any initialisation. *)
Definition mf16_static : mf16 :=
  {| rows := 0; columns := 0; errors := 0; data := ∅ |}.

(** [kalman16_uc_t]: an uncontrolled filter; the fields the unit reads and
    writes. *)
Record kalman16_uc_t := mk_kalman16_uc
  { kf_x : mf16; kf_A : mf16; kf_P : mf16; kf_Q : mf16 }.

(** [kalman16_observation_t]: an observation instance; the fields the unit
    reads and writes. *)
Record kalman16_observation_t := mk_kalman16_observation
  { kfm_H : mf16; kfm_R : mf16; kfm_z : mf16 }.

Definition with_x (v : mf16) (kf : kalman16_uc_t) : kalman16_uc_t :=
  {| kf_x := v; kf_A := kf_A kf; kf_P := kf_P kf; kf_Q := kf_Q kf |}.
Definition with_A (v : mf16) (kf : kalman16_uc_t) : kalman16_uc_t :=
  {| kf_x := kf_x kf; kf_A := v; kf_P := kf_P kf; kf_Q := kf_Q kf |}.
Definition with_P (v : mf16) (kf : kalman16_uc_t) : kalman16_uc_t :=
  {| kf_x := kf_x kf; kf_A := kf_A kf; kf_P := v; kf_Q := kf_Q kf |}.
Definition with_Q (v : mf16) (kf : kalman16_uc_t) : kalman16_uc_t :=
  {| kf_x := kf_x kf; kf_A := kf_A kf; kf_P := kf_P kf; kf_Q := v |}.

Definition with_H (v : mf16) (kfm : kalman16_observation_t) :=
  {| kfm_H := v; kfm_R := kfm_R kfm; kfm_z := kfm_z kfm |}.
Definition with_R (v : mf16) (kfm : kalman16_observation_t) :=
  {| kfm_H := kfm_H kfm; kfm_R := v; kfm_z := kfm_z kfm |}.
Definition with_z (v : mf16) (kfm : kalman16_observation_t) :=
  {| kfm_H := kfm_H kfm; kfm_R := kfm_R kfm; kfm_z := v |}.

(** Modelled from the spec: the accessors of fixkalman.h, which is not under
    src/; they return the state vector [x] and the covariance [P] of a
    filter. *)
Definition kalman_get_state_vector_uc (kf : kalman16_uc_t) : mf16 := kf_x kf.
Definition kalman_get_system_covariance_uc (kf : kalman16_uc_t) : mf16 := kf_P kf.

(** The globals of the unit. *)
Record fusion_state := mk_fusion_state
  { kf_attitude : kalman16_uc_t;
    kf_orientation : kalman16_uc_t;
    kfm_accel : kalman16_observation_t;
    kfm_magneto : kalman16_observation_t;
    kfm_gyro : kalman16_observation_t;
    m_accelerometer : v3d;
    m_gyroscope : v3d;
    m_magnetometer : v3d;
    m_have_accelerometer : bool;
    m_have_gyroscope : bool;
    m_have_magnetometer : bool;
    m_attitude_bootstrapped : bool;
    m_orientation_bootstrapped : bool }.

Definition with_kf_attitude (v : kalman16_uc_t) (st : fusion_state) :=
  mk_fusion_state v (kf_orientation st) (kfm_accel st) (kfm_magneto st)
    (kfm_gyro st) (m_accelerometer st) (m_gyroscope st) (m_magnetometer st)
    (m_have_accelerometer st) (m_have_gyroscope st) (m_have_magnetometer st)
    (m_attitude_bootstrapped st) (m_orientation_bootstrapped st).
Definition with_kf_orientation (v : kalman16_uc_t) (st : fusion_state) :=
  mk_fusion_state (kf_attitude st) v (kfm_accel st) (kfm_magneto st)
    (kfm_gyro st) (m_accelerometer st) (m_gyroscope st) (m_magnetometer st)
    (m_have_accelerometer st) (m_have_gyroscope st) (m_have_magnetometer st)
    (m_attitude_bootstrapped st) (m_orientation_bootstrapped st).
Definition with_kfm_accel (v : kalman16_observation_t) (st : fusion_state) :=
  mk_fusion_state (kf_attitude st) (kf_orientation st) v (kfm_magneto st)
    (kfm_gyro st) (m_accelerometer st) (m_gyroscope st) (m_magnetometer st)
    (m_have_accelerometer st) (m_have_gyroscope st) (m_have_magnetometer st)
    (m_attitude_bootstrapped st) (m_orientation_bootstrapped st).
Definition with_kfm_magneto (v : kalman16_observation_t) (st : fusion_state) :=
  mk_fusion_state (kf_attitude st) (kf_orientation st) (kfm_accel st) v
    (kfm_gyro st) (m_accelerometer st) (m_gyroscope st) (m_magnetometer st)
    (m_have_accelerometer st) (m_have_gyroscope st) (m_have_magnetometer st)
    (m_attitude_bootstrapped st) (m_orientation_bootstrapped st).
Definition with_kfm_gyro (v : kalman16_observation_t) (st : fusion_state) :=
  mk_fusion_state (kf_attitude st) (kf_orientation st) (kfm_accel st)
    (kfm_magneto st) v (m_accelerometer st) (m_gyroscope st) (m_magnetometer st)
    (m_have_accelerometer st) (m_have_gyroscope st) (m_have_magnetometer st)
    (m_attitude_bootstrapped st) (m_orientation_bootstrapped st).
Definition with_accelerometer (v : v3d) (have : bool) (st : fusion_state) :=
  mk_fusion_state (kf_attitude st) (kf_orientation st) (kfm_accel st)
    (kfm_magneto st) (kfm_gyro st) v (m_gyroscope st) (m_magnetometer st)
    have (m_have_gyroscope st) (m_have_magnetometer st)
    (m_attitude_bootstrapped st) (m_orientation_bootstrapped st).
Definition with_gyroscope (v : v3d) (have : bool) (st : fusion_state) :=
  mk_fusion_state (kf_attitude st) (kf_orientation st) (kfm_accel st)
    (kfm_magneto st) (kfm_gyro st) (m_accelerometer st) v (m_magnetometer st)
    (m_have_accelerometer st) have (m_have_magnetometer st)
    (m_attitude_bootstrapped st) (m_orientation_bootstrapped st).
Definition with_magnetometer (v : v3d) (have : bool) (st : fusion_state) :=
  mk_fusion_state (kf_attitude st) (kf_orientation st) (kfm_accel st)
    (kfm_magneto st) (kfm_gyro st) (m_accelerometer st) (m_gyroscope st) v
    (m_have_accelerometer st) (m_have_gyroscope st) have
    (m_attitude_bootstrapped st) (m_orientation_bootstrapped st).
Definition with_attitude_bootstrapped (v : bool) (st : fusion_state) :=
  mk_fusion_state (kf_attitude st) (kf_orientation st) (kfm_accel st)
    (kfm_magneto st) (kfm_gyro st) (m_accelerometer st) (m_gyroscope st)
    (m_magnetometer st)
    (m_have_accelerometer st) (m_have_gyroscope st) (m_have_magnetometer st)
    v (m_orientation_bootstrapped st).
Definition with_orientation_bootstrapped (v : bool) (st : fusion_state) :=
  mk_fusion_state (kf_attitude st) (kf_orientation st) (kfm_accel st)
    (kfm_magneto st) (kfm_gyro st) (m_accelerometer st) (m_gyroscope st)
    (m_magnetometer st)
    (m_have_accelerometer st) (m_have_gyroscope st) (m_have_magnetometer st)
    (m_attitude_bootstrapped st) v.

Definition with_m_accelerometer (v : v3d) (st : fusion_state) :=
  with_accelerometer v (m_have_accelerometer st) st.
Definition with_have_accelerometer (b : bool) (st : fusion_state) :=
  with_accelerometer (m_accelerometer st) b st.
Definition with_m_gyroscope (v : v3d) (st : fusion_state) :=
  with_gyroscope v (m_have_gyroscope st) st.
Definition with_have_gyroscope (b : bool) (st : fusion_state) :=
  with_gyroscope (m_gyroscope st) b st.
Definition with_m_magnetometer (v : v3d) (st : fusion_state) :=
  with_magnetometer v (m_have_magnetometer st) st.
Definition with_have_magnetometer (b : bool) (st : fusion_state) :=
  with_magnetometer (m_magnetometer st) b st.

(** The static initialisers of the unit: zeroed filters and observations,
    zero sample buffers, every flag false. *)
Definition kalman16_uc_static : kalman16_uc_t :=
  mk_kalman16_uc mf16_static mf16_static mf16_static mf16_static.
Definition kalman16_observation_static : kalman16_observation_t :=
  mk_kalman16_observation mf16_static mf16_static mf16_static.
Definition power_on : fusion_state :=
  mk_fusion_state kalman16_uc_static kalman16_uc_static
    kalman16_observation_static kalman16_observation_static
    kalman16_observation_static
    (mk_v3d 0 0 0) (mk_v3d 0 0 0) (mk_v3d 0 0 0)
    false false false false false.

(** ** The external libraries *)

(** The operations of fixmath.h, fixvector3d.h, fixquat.h, fixmatrix.h and
    fixkalman.h that the unit calls.  A call through a pointer is a function
    from the old value of the object to its new value.  The bound on
    [FIXMATRIX_MAX_SIZE] is the [#error] guard at the top of the unit. *)
Class MathKernel := {
  FIXMATRIX_MAX_SIZE : nat;
  FIXMATRIX_MAX_SIZE_ge : (6 <= FIXMATRIX_MAX_SIZE)%nat;
  fix16_add : fix16_t -> fix16_t -> fix16_t;
  fix16_sub : fix16_t -> fix16_t -> fix16_t;
  fix16_mul : fix16_t -> fix16_t -> fix16_t;
  fix16_div : fix16_t -> fix16_t -> fix16_t;
  fix16_sq : fix16_t -> fix16_t;
  fix16_sqrt : fix16_t -> fix16_t;
  fix16_abs : fix16_t -> fix16_t;
  fix16_asin : fix16_t -> fix16_t;
  fix16_atan2 : fix16_t -> fix16_t -> fix16_t;
  v3d_norm : v3d -> fix16_t;
  qf16_normalize : qf16 -> qf16;
  mf16_fill_diagonal : mf16 -> fix16_t -> mf16;
  kalman_filter_initialize_uc : kalman16_uc_t -> nat -> kalman16_uc_t;
  kalman_observation_initialize :
    kalman16_observation_t -> nat -> nat -> kalman16_observation_t;
  kalman_predict_P_uc : kalman16_uc_t -> kalman16_uc_t;
  kalman_correct_uc :
    kalman16_uc_t -> kalman16_observation_t -> kalman16_uc_t
}.

(** Sequencing of steps that may stop on an assertion. *)
Notation "'do' x <- e ; k" :=
  (match e with Some x => k | None => None end)
  (at level 10, x name, e at level 100, k at level 200).

(** ** The fusion driver *)

Section Fusion.

Context {K : MathKernel}.

(** *** Helper macros *)

(** [matrix_set(matrix, row, column, value)]: four assertions, then the
    write. *)
Definition matrix_set (matrix : mf16) (row column : nat) (value : fix16_t)
  : option mf16 :=
  if (row <=? FIXMATRIX_MAX_SIZE)%nat && (column <=? FIXMATRIX_MAX_SIZE)%nat
     && (row <? rows matrix)%nat && (column <? columns matrix)%nat
  then Some (mf16_put matrix row column value)
  else None.

(** *** Helper functions *)

Definition norm3 (a b c : fix16_t) : fix16_t :=
  fix16_sqrt (fix16_add (fix16_sq a) (fix16_add (fix16_sq b) (fix16_sq c))).

(** *** System initialization *)

Definition update_state_matrix_from_state (kf : kalman16_uc_t)
  (deltaT : fix16_t) : option kalman16_uc_t :=
  let A := kf_A kf in
  let x := kf_x kf in
  let c1 := mf16_get x 0 0 in
  let c2 := mf16_get x 1 0 in
  let c3 := mf16_get x 2 0 in
  do A <- matrix_set A 0 4 (fix16_mul c3 deltaT);
  do A <- matrix_set A 0 5 (neg32 (fix16_mul c2 deltaT));
  do A <- matrix_set A 1 3 (neg32 (fix16_mul c3 deltaT));
  do A <- matrix_set A 1 5 (fix16_mul c1 deltaT);
  do A <- matrix_set A 2 3 (fix16_mul c2 deltaT);
  do A <- matrix_set A 2 4 (neg32 (fix16_mul c1 deltaT));
  Some (with_A A kf).

Definition initialize_system_filter (kf : kalman16_uc_t) (states : nat)
  : option kalman16_uc_t :=
  let kf := kalman_filter_initialize_uc kf states in
  (* state transition model *)
  let kf := with_A (mf16_fill_diagonal (kf_A kf) (F16 1 1)) kf in
  do kf <- update_state_matrix_from_state kf (F16 1 1);
  (* state variances *)
  let P := kf_P kf in
  do P <- matrix_set P 0 0 (F16 5 1);
  do P <- matrix_set P 1 1 (F16 5 1);
  do P <- matrix_set P 2 2 (F16 5 1);
  do P <- matrix_set P 3 3 (F16 1 1);
  do P <- matrix_set P 4 4 (F16 1 1);
  do P <- matrix_set P 5 5 (F16 1 1);
  let kf := with_P P kf in
  (* system process noise *)
  let Q := kf_Q kf in
  do Q <- matrix_set Q 0 0 q_axis;
  do Q <- matrix_set Q 1 1 q_axis;
  do Q <- matrix_set Q 2 2 q_axis;
  do Q <- matrix_set Q 3 3 q_gyro;
  do Q <- matrix_set Q 4 4 q_gyro;
  do Q <- matrix_set Q 5 5 q_gyro;
  Some (with_Q Q kf).

(** The seeds of the two axis rows are the integer literals of the source:
    [0] and [1], not [F16(1)]. *)
Definition initialize_system (st : fusion_state) : option fusion_state :=
  do kfo <- initialize_system_filter (kf_orientation st) KF_ORIENTATION_STATES;
  let st := with_kf_orientation kfo st in
  do kfa <- initialize_system_filter (kf_attitude st) KF_ATTITUDE_STATES;
  let st := with_kf_attitude kfa st in
  let xa := kf_x (kf_attitude st) in
  let xa := mf16_put xa 0 0 0 in
  let xa := mf16_put xa 1 0 0 in
  let xa := mf16_put xa 2 0 1 in
  let st := with_kf_attitude (with_x xa (kf_attitude st)) st in
  let xo := kf_x (kf_orientation st) in
  let xo := mf16_put xo 0 0 0 in
  let xo := mf16_put xo 1 0 1 in
  let xo := mf16_put xo 2 0 0 in
  Some (with_kf_orientation (with_x xo (kf_orientation st)) st).

Definition update_measurement_noise (kfm : kalman16_observation_t)
  (axisXYZ gyroXYZ : fix16_t) : option kalman16_observation_t :=
  let R := kfm_R kfm in
  do R <- matrix_set R 0 0 axisXYZ;
  do R <- matrix_set R 1 1 axisXYZ;
  do R <- matrix_set R 2 2 axisXYZ;
  do R <- matrix_set R 3 3 gyroXYZ;
  do R <- matrix_set R 4 4 gyroXYZ;
  do R <- matrix_set R 5 5 gyroXYZ;
  Some (with_R R kfm).

(** Returns 1 if an external acceleration was detected, 0 otherwise. *)
Definition acceleration_detected (st : fusion_state) : Z :=
  let a := m_accelerometer st in
  let alpha :=
    fix16_abs (fix16_sub (norm3 (v3d_x a) (v3d_y a) (v3d_z a)) (F16 1 1)) in
  if alpha <? attitude_threshold then 0 else 1.

Definition tune_measurement_noise (kfm : kalman16_observation_t)
  : option kalman16_observation_t :=
  let R := kfm_R kfm in
  do R <- matrix_set R 0 0 (fix16_mul initial_r_axis alpha1);
  do R <- matrix_set R 1 1 (fix16_mul initial_r_axis alpha1);
  do R <- matrix_set R 2 2 (fix16_mul initial_r_axis alpha1);
  do R <- matrix_set R 3 3 (fix16_mul initial_r_gyro alpha2);
  do R <- matrix_set R 4 4 (fix16_mul initial_r_gyro alpha2);
  do R <- matrix_set R 5 5 (fix16_mul initial_r_gyro alpha2);
  Some (with_R R kfm).

Definition initialize_observation (kfm : kalman16_observation_t)
  (states observations : nat) : option kalman16_observation_t :=
  let kfm := kalman_observation_initialize kfm states observations in
  (* observation model *)
  let Hm := kfm_H kfm in
  do Hm <- matrix_set Hm 0 0 F16_ONE;
  do Hm <- matrix_set Hm 1 1 F16_ONE;
  do Hm <- matrix_set Hm 2 2 F16_ONE;
  do Hm <- matrix_set Hm 3 3 F16_ONE;
  do Hm <- matrix_set Hm 4 4 F16_ONE;
  do Hm <- matrix_set Hm 5 5 F16_ONE;
  let kfm := with_H Hm kfm in
  (* observation process noise covariance *)
  update_measurement_noise kfm initial_r_axis initial_r_gyro.

Definition initialize_observation_accel (st : fusion_state)
  : option fusion_state :=
  do kfm <- initialize_observation (kfm_accel st) KF_ATTITUDE_STATES KFM_ACCEL;
  Some (with_kfm_accel kfm st).

Definition initialize_observation_magneto (st : fusion_state)
  : option fusion_state :=
  do kfm <- initialize_observation (kfm_magneto st) KF_ORIENTATION_STATES
              KFM_MAGNETO;
  Some (with_kfm_magneto kfm st).

Definition initialize_observation_gyro (st : fusion_state)
  : option fusion_state :=
  let kfm :=
    kalman_observation_initialize (kfm_gyro st) KF_ORIENTATION_STATES KFM_GYRO in
  let Hm := kfm_H kfm in
  do Hm <- matrix_set Hm 0 3 F16_ONE;
  do Hm <- matrix_set Hm 1 4 F16_ONE;
  do Hm <- matrix_set Hm 2 5 F16_ONE;
  let kfm := with_H Hm kfm in
  let R := kfm_R kfm in
  do R <- matrix_set R 0 0 initial_r_gyro;
  do R <- matrix_set R 1 1 initial_r_gyro;
  do R <- matrix_set R 2 2 initial_r_gyro;
  Some (with_kfm_gyro (with_R R kfm) st).

Definition fusion_initialize (st : fusion_state) : option fusion_state :=
  do st <- initialize_system st;
  do st <- initialize_observation_gyro st;
  do st <- initialize_observation_accel st;
  initialize_observation_magneto st.

(** *** State calculation helpers *)

Definition fusion_sanitize_state (kf : kalman16_uc_t) : kalman16_uc_t :=
  let x := kf_x kf in
  (* fetch axes *)
  let c1 := mf16_get x 0 0 in
  let c2 := mf16_get x 1 0 in
  let c3 := mf16_get x 2 0 in
  (* calculate vector norm *)
  let norm := norm3 c1 c2 c3 in
  (* normalize vectors *)
  let c1 := fix16_div c1 norm in
  let c2 := fix16_div c2 norm in
  let c3 := fix16_div c3 norm in
  (* re-set to state *)
  let x := mf16_put x 0 0 c1 in
  let x := mf16_put x 1 0 c2 in
  let x := mf16_put x 2 0 c3 in
  with_x x kf.

(** The out-parameters [roll] and [pitch], in this order. *)
Definition calculate_roll_pitch (st : fusion_state) : fix16_t * fix16_t :=
  let x := kalman_get_state_vector_uc (kf_attitude st) in
  let c31 := mf16_get x 0 0 in
  let c32 := mf16_get x 1 0 in
  let c33 := mf16_get x 2 0 in
  let pitch := neg32 (fix16_asin c31) in
  let roll := neg32 (fix16_atan2 c32 (neg32 c33)) in
  (roll, pitch).

Definition calculate_yaw (st : fusion_state) (roll pitch : fix16_t)
  : fix16_t :=
  let x2 := kalman_get_state_vector_uc (kf_orientation st) in
  let x3 := kalman_get_state_vector_uc (kf_attitude st) in
  let c21 := mf16_get x2 0 0 in
  let c22 := mf16_get x2 1 0 in
  let c23 := mf16_get x2 2 0 in
  let c31 := mf16_get x3 0 0 in
  let c32 := mf16_get x3 1 0 in
  let c33 := mf16_get x3 2 0 in
  let c11 := fix16_sub (fix16_mul c22 c33) (fix16_mul c23 c32) in
  fix16_atan2 c21 (neg32 c11).

(** *** Convenience functions *)

(** The out-parameters [roll], [pitch] and [yaw]; the globals are only
    read. *)
Definition fusion_fetch_angles (st : fusion_state)
  : fix16_t * fix16_t * fix16_t :=
  let '(roll, pitch) := calculate_roll_pitch st in
  let yaw := calculate_yaw st roll pitch in
  (roll, pitch, yaw).

(** The quaternion of [fetch_quaternion_opt2] before the closing
    [qf16_normalize]. *)
Definition fetch_quaternion_opt2_raw (st : fusion_state) : qf16 :=
  let x2 := kalman_get_state_vector_uc (kf_orientation st) in
  let x3 := kalman_get_state_vector_uc (kf_attitude st) in
  let m10 := mf16_get x2 0 0 in
  let m11 := mf16_get x2 1 0 in
  let m12 := mf16_get x2 2 0 in
  let m20 := neg32 (mf16_get x3 0 0) in
  let m21 := neg32 (mf16_get x3 1 0) in
  let m22 := neg32 (mf16_get x3 2 0) in
  (* cross product for C1 *)
  let m00 := fix16_sub (fix16_mul m11 m22) (fix16_mul m12 m21) in
  let m01 := fix16_sub (fix16_mul m12 m20) (fix16_mul m10 m22) in
  let m02 := fix16_sub (fix16_mul m10 m21) (fix16_mul m11 m20) in
  (* normalize C1 *)
  let norm := norm3 m00 m01 m02 in
  let m00 := fix16_div m00 norm in
  let m01 := fix16_div m01 norm in
  let m02 := fix16_div m02 norm in
  (* check the matrice's trace *)
  let trace := fix16_add m00 (fix16_add m11 m22) in
  if 0 <? trace then
    let s := fix16_div (F16 5 10) (fix16_sqrt (fix16_add (F16 1 1) trace)) in
    mk_qf16 (fix16_div (F16 25 100) s)
            (fix16_mul (fix16_sub m21 m12) s)
            (fix16_mul (fix16_sub m02 m20) s)
            (fix16_mul (fix16_sub m10 m01) s)
  else if (m11 <? m00) && (m22 <? m00) then
    let s := fix16_mul (F16 2 1)
               (fix16_sqrt (fix16_add (F16 1 1)
                              (fix16_sub m00 (fix16_add m11 m22)))) in
    mk_qf16 (fix16_div (fix16_sub m21 m12) s)
            (fix16_mul (F16 25 100) s)
            (fix16_div (fix16_add m01 m10) s)
            (fix16_div (fix16_add m02 m20) s)
  else if m22 <? m11 then
    let s := fix16_mul (F16 2 1)
               (fix16_sqrt (fix16_add (F16 1 1)
                              (fix16_sub m11 (fix16_add m00 m22)))) in
    mk_qf16 (fix16_div (fix16_sub m02 m20) s)
            (fix16_div (fix16_add m01 m10) s)
            (fix16_mul (F16 25 100) s)
            (fix16_div (fix16_add m12 m21) s)
  else
    let s := fix16_mul (F16 2 1)
               (fix16_sqrt (fix16_add (F16 1 1)
                              (fix16_sub m22 (fix16_add m00 m11)))) in
    mk_qf16 (fix16_div (fix16_sub m10 m01) s)
            (fix16_div (fix16_add m02 m20) s)
            (fix16_div (fix16_add m12 m21) s)
            (fix16_mul (F16 25 100) s).

Definition fetch_quaternion_opt2 (st : fusion_state) : qf16 :=
  qf16_normalize (fetch_quaternion_opt2_raw st).

Definition fusion_fetch_quaternion (st : fusion_state) : qf16 :=
  fetch_quaternion_opt2 st.

(** *** State prediction *)

Definition fusion_fastpredict_X (kf : kalman16_uc_t) (deltaT : fix16_t)
  : kalman16_uc_t :=
  let x := kalman_get_state_vector_uc kf in
  (* fetch estimated DCM components *)
  let c1 := mf16_get x 0 0 in
  let c2 := mf16_get x 1 0 in
  let c3 := mf16_get x 2 0 in
  (* fetch estimated angular velocities *)
  let gx := mf16_get x 3 0 in
  let gy := mf16_get x 4 0 in
  let gz := mf16_get x 5 0 in
  (* solve differential equations *)
  let d_c1 := fix16_sub (fix16_mul c3 gy) (fix16_mul c2 gz) in
  let d_c2 := fix16_sub (fix16_mul c1 gz) (fix16_mul c3 gx) in
  let d_c3 := fix16_sub (fix16_mul c2 gx) (fix16_mul c1 gy) in
  (* integrate *)
  let x := mf16_put x 0 0 (fix16_add c1 (fix16_mul d_c1 deltaT)) in
  let x := mf16_put x 1 0 (fix16_add c2 (fix16_mul d_c2 deltaT)) in
  let x := mf16_put x 2 0 (fix16_add c3 (fix16_mul d_c3 deltaT)) in
  (* keep constant *)
  let x := mf16_put x 3 0 gx in
  let x := mf16_put x 4 0 gy in
  let x := mf16_put x 5 0 gz in
  with_x x kf.

Definition fusion_predict (deltaT : fix16_t) (st : fusion_state)
  : option fusion_state :=
  (* update state matrix *)
  do kfa <- update_state_matrix_from_state (kf_attitude st) deltaT;
  let st := with_kf_attitude kfa st in
  do kfo <- update_state_matrix_from_state (kf_orientation st) deltaT;
  let st := with_kf_orientation kfo st in
  (* predict state *)
  let st := with_kf_attitude (fusion_fastpredict_X (kf_attitude st) deltaT) st in
  let st :=
    with_kf_orientation (fusion_fastpredict_X (kf_orientation st) deltaT) st in
  (* predict covariance *)
  let st := with_kf_attitude (kalman_predict_P_uc (kf_attitude st)) st in
  let st := with_kf_orientation (kalman_predict_P_uc (kf_orientation st)) st in
  (* re-orthogonalize *)
  let st := with_kf_attitude (fusion_sanitize_state (kf_attitude st)) st in
  Some (with_kf_orientation (fusion_sanitize_state (kf_orientation st)) st).

(** *** Setters for sensor data *)

Definition fusion_set_accelerometer (ax ay az : fix16_t) (st : fusion_state)
  : fusion_state :=
  let st := with_m_accelerometer (mk_v3d ax ay az) st in
  with_have_accelerometer true st.

Definition fusion_set_gyroscope (gx gy gz : fix16_t) (st : fusion_state)
  : fusion_state :=
  let st := with_m_gyroscope (mk_v3d gx gy gz) st in
  with_have_gyroscope true st.

Definition fusion_set_magnetometer (mx my mz : fix16_t) (st : fusion_state)
  : fusion_state :=
  let st := with_m_magnetometer (mk_v3d mx my mz) st in
  with_have_magnetometer true st.

(** *** State update *)

Definition fusion_update_attitude_gyro (deltaT : fix16_t) (st : fusion_state)
  : option fusion_state :=
  (* prepare measurement *)
  let z := kfm_z (kfm_gyro st) in
  do z <- matrix_set z 0 0 (v3d_x (m_gyroscope st));
  do z <- matrix_set z 1 0 (v3d_y (m_gyroscope st));
  do z <- matrix_set z 2 0 (v3d_z (m_gyroscope st));
  let st := with_kfm_gyro (with_z z (kfm_gyro st)) st in
  (* perform Kalman update *)
  let st :=
    with_kf_attitude (kalman_correct_uc (kf_attitude st) (kfm_gyro st)) st in
  (* re-orthogonalize *)
  Some (with_kf_attitude (fusion_sanitize_state (kf_attitude st)) st).

Definition fusion_update_attitude (deltaT : fix16_t) (st : fusion_state)
  : option fusion_state :=
  (* perform acceleration detection *)
  if negb (acceleration_detected st =? 0) then
    fusion_update_attitude_gyro deltaT st
  else
    (* prepare measurement *)
    let z := kfm_z (kfm_accel st) in
    let norm := v3d_norm (m_accelerometer st) in
    do z <- matrix_set z 0 0 (fix16_div (v3d_x (m_accelerometer st)) norm);
    do z <- matrix_set z 1 0 (fix16_div (v3d_y (m_accelerometer st)) norm);
    do z <- matrix_set z 2 0 (fix16_div (v3d_z (m_accelerometer st)) norm);
    do z <- matrix_set z 3 0 (v3d_x (m_gyroscope st));
    do z <- matrix_set z 4 0 (v3d_y (m_gyroscope st));
    do z <- matrix_set z 5 0 (v3d_z (m_gyroscope st));
    let st := with_kfm_accel (with_z z (kfm_accel st)) st in
    (* prepare noise *)
    do kfm <- tune_measurement_noise (kfm_accel st);
    let st := with_kfm_accel kfm st in
    (* perform Kalman update *)
    let st :=
      with_kf_attitude (kalman_correct_uc (kf_attitude st) (kfm_accel st)) st in
    (* re-orthogonalize *)
    Some (with_kf_attitude (fusion_sanitize_state (kf_attitude st)) st).

(** The out-parameters [mx], [my] and [mz]. *)
Definition magnetometer_project (st : fusion_state)
  : fix16_t * fix16_t * fix16_t :=
  let x := kalman_get_state_vector_uc (kf_attitude st) in
  let acc_x := mf16_get x 0 0 in
  let acc_y := mf16_get x 1 0 in
  let acc_z := mf16_get x 2 0 in
  let m := m_magnetometer st in
  let mx := fix16_sub (fix16_mul (v3d_y m) acc_z) (fix16_mul (v3d_z m) acc_y) in
  let my := fix16_sub (fix16_mul (v3d_z m) acc_x) (fix16_mul (v3d_x m) acc_z) in
  let mz := fix16_sub (fix16_mul (v3d_x m) acc_y) (fix16_mul (v3d_y m) acc_x) in
  (* normalize C1 *)
  let norm := norm3 mx my mz in
  (fix16_div mx norm, fix16_div my norm, fix16_div mz norm).

Definition fusion_update_orientation_gyro (deltaT : fix16_t)
  (st : fusion_state) : option fusion_state :=
  (* prepare measurement *)
  let z := kfm_z (kfm_gyro st) in
  do z <- matrix_set z 0 0 (v3d_x (m_gyroscope st));
  do z <- matrix_set z 1 0 (v3d_y (m_gyroscope st));
  do z <- matrix_set z 2 0 (v3d_z (m_gyroscope st));
  let st := with_kfm_gyro (with_z z (kfm_gyro st)) st in
  (* perform Kalman update *)
  let st :=
    with_kf_orientation
      (kalman_correct_uc (kf_orientation st) (kfm_gyro st)) st in
  (* re-orthogonalize *)
  Some (with_kf_orientation (fusion_sanitize_state (kf_orientation st)) st).

(** The singularity check of the source sits under [#if 0]. *)
Definition fusion_update_orientation (deltaT : fix16_t) (st : fusion_state)
  : option fusion_state :=
  (* calculate metrics required for update *)
  let '(mx, my, mz) := magnetometer_project st in
  (* prepare noise *)
  do kfm <- tune_measurement_noise (kfm_magneto st);
  let st := with_kfm_magneto kfm st in
  let R := kfm_R (kfm_magneto st) in
  do R <- matrix_set R 0 0 (fix16_mul initial_r_projection alpha1);
  do R <- matrix_set R 1 1 (fix16_mul initial_r_projection alpha1);
  do R <- matrix_set R 2 2 (fix16_mul initial_r_projection alpha1);
  let st := with_kfm_magneto (with_R R (kfm_magneto st)) st in
  (* prepare measurement *)
  let z := kfm_z (kfm_magneto st) in
  do z <- matrix_set z 0 0 mx;
  do z <- matrix_set z 1 0 my;
  do z <- matrix_set z 2 0 mz;
  do z <- matrix_set z 3 0 (v3d_x (m_gyroscope st));
  do z <- matrix_set z 4 0 (v3d_y (m_gyroscope st));
  do z <- matrix_set z 5 0 (v3d_z (m_gyroscope st));
  let st := with_kfm_magneto (with_z z (kfm_magneto st)) st in
  (* perform Kalman update *)
  let st :=
    with_kf_orientation
      (kalman_correct_uc (kf_orientation st) (kfm_magneto st)) st in
  (* re-orthogonalize *)
  Some (with_kf_orientation (fusion_sanitize_state (kf_orientation st)) st).

(** The bootstrap write of the attitude filter inside [fusion_update]. *)
Definition bootstrap_attitude (st : fusion_state) : fusion_state :=
  let norm := v3d_norm (m_accelerometer st) in
  let x := kf_x (kf_attitude st) in
  let x := mf16_put x 0 0 (fix16_div (v3d_x (m_accelerometer st)) norm) in
  let x := mf16_put x 1 0 (fix16_div (v3d_y (m_accelerometer st)) norm) in
  let x := mf16_put x 2 0 (fix16_div (v3d_z (m_accelerometer st)) norm) in
  let st := with_kf_attitude (with_x x (kf_attitude st)) st in
  with_attitude_bootstrapped true st.

(** The bootstrap write of the orientation filter inside [fusion_update]. *)
Definition bootstrap_orientation (st : fusion_state) : fusion_state :=
  let '(mx, my, mz) := magnetometer_project st in
  let x := kf_x (kf_orientation st) in
  let x := mf16_put x 0 0 mx in
  let x := mf16_put x 1 0 my in
  let x := mf16_put x 2 0 mz in
  let st := with_kf_orientation (with_x x (kf_orientation st)) st in
  with_orientation_bootstrapped true st.

(** [TEST_ENABLED] is 0: the test block at the top of the function is
    compiled out. *)
Definition fusion_update (deltaT : fix16_t) (st : fusion_state)
  : option fusion_state :=
  (* perform roll and pitch updates *)
  do st <-
    (if m_have_accelerometer st then
       (* bootstrap filter *)
       let st :=
         if negb (m_attitude_bootstrapped st) then bootstrap_attitude st
         else st in
       fusion_update_attitude deltaT st
     else
       (* perform only rotational update *)
       fusion_update_attitude_gyro deltaT st);
  (* perform yaw updates *)
  do st <-
    (if m_have_magnetometer st then
       (* bootstrap filter *)
       let st :=
         if negb (m_orientation_bootstrapped st) && m_attitude_bootstrapped st
         then bootstrap_orientation st
         else st in
       fusion_update_orientation deltaT st
     else
       (* perform only rotational update *)
       fusion_update_orientation_gyro deltaT st);
  (* reset information *)
  let st := with_have_accelerometer false st in
  Some (with_have_magnetometer false st).

(** *** The interface of the unit *)

(** One call of an exported function. *)
Inductive call :=
| call_initialize
| call_set_accelerometer (ax ay az : fix16_t)
| call_set_gyroscope (gx gy gz : fix16_t)
| call_set_magnetometer (mx my mz : fix16_t)
| call_predict (deltaT : fix16_t)
| call_update (deltaT : fix16_t)
| call_fetch_angles
| call_fetch_quaternion.

(** The globals after a call; the two getters write their out-parameters
    only. *)
Definition step (c : call) (st : fusion_state) : option fusion_state :=
  match c with
  | call_initialize => fusion_initialize st
  | call_set_accelerometer ax ay az => Some (fusion_set_accelerometer ax ay az st)
  | call_set_gyroscope gx gy gz => Some (fusion_set_gyroscope gx gy gz st)
  | call_set_magnetometer mx my mz => Some (fusion_set_magnetometer mx my mz st)
  | call_predict deltaT => fusion_predict deltaT st
  | call_update deltaT => fusion_update deltaT st
  | call_fetch_angles => let _ := fusion_fetch_angles st in Some st
  | call_fetch_quaternion => let _ := fusion_fetch_quaternion st in Some st
  end.

Fixpoint run (cs : list call) (st : fusion_state) : option fusion_state :=
  match cs with
  | [] => Some st
  | c :: cs => do st <- step c st; run cs st
  end.

(** *** Vocabulary of the statements *)

(** The sample buffers and the three "have" flags. *)
Definition latches (st : fusion_state) :=
  (m_accelerometer st, m_gyroscope st, m_magnetometer st,
   m_have_accelerometer st, m_have_gyroscope st, m_have_magnetometer st).

(** The first three entries of a state vector: the tracked axis. *)
Definition axis_row (kf : kalman16_uc_t) : v3d :=
  mk_v3d (mf16_get (kf_x kf) 0 0) (mf16_get (kf_x kf) 1 0)
    (mf16_get (kf_x kf) 2 0).

(** Entries 3..5 of a state vector: the angular velocity. *)
Definition rate_row (kf : kalman16_uc_t) : v3d :=
  mk_v3d (mf16_get (kf_x kf) 3 0) (mf16_get (kf_x kf) 4 0)
    (mf16_get (kf_x kf) 5 0).

(** [| sqrt(c1^2 + c2^2 + c3^2) - 1 | < 2^-10] on the Q16.16 integers:
    [1] is 65536 and [2^-10] is 64, and the root is compared through
    squares. *)
Definition axis_normalised (kf : kalman16_uc_t) : bool :=
  let c := axis_row kf in
  let n2 := v3d_x c * v3d_x c + v3d_y c * v3d_y c + v3d_z c * v3d_z c in
  ((65536 - 64) * (65536 - 64) <? n2) && (n2 <? (65536 + 64) * (65536 + 64)).

(** The same bound evaluated with the arithmetic of the unit itself. *)
Definition axis_normalised_fix16 (kf : kalman16_uc_t) : bool :=
  let c := axis_row kf in
  fix16_abs (fix16_sub (norm3 (v3d_x c) (v3d_y c) (v3d_z c)) (F16 1 1)) <? 64.

(** The matrix has at least [nr] rows and [nc] columns, so that the
    assertions of [matrix_set] hold on that block. *)
Definition fits (m : mf16) (nr nc : nat) : bool :=
  (nr <=? rows m)%nat && (nc <=? columns m)%nat.

(** The dimensions [fusion_update] asserts on the observation instances. *)
Definition update_ready (st : fusion_state) : bool :=
  fits (kfm_z (kfm_gyro st)) 3 1
  && fits (kfm_z (kfm_accel st)) 6 1 && fits (kfm_R (kfm_accel st)) 6 6
  && fits (kfm_z (kfm_magneto st)) 6 1 && fits (kfm_R (kfm_magneto st)) 6 6.

(** The dimensions [fusion_predict] asserts on the transition matrices. *)
Definition predict_ready (st : fusion_state) : bool :=
  fits (kf_A (kf_attitude st)) 3 6 && fits (kf_A (kf_orientation st)) 3 6.

(** [kfm_gyro] once the latched gyroscope is written to its [z]. *)
Definition gyro_observation (st : fusion_state) : kalman16_observation_t :=
  let g := m_gyroscope st in
  let z := kfm_z (kfm_gyro st) in
  with_z (mf16_put (mf16_put (mf16_put z 0 0 (v3d_x g)) 1 0 (v3d_y g))
            2 0 (v3d_z g))
    (kfm_gyro st).

(** The diagonal of [R] after [tune_measurement_noise], with [axis] on the
    first three entries. *)
Definition tuned_R (R : mf16) (axis : fix16_t) : mf16 :=
  let gyro := fix16_mul initial_r_gyro alpha2 in
  mf16_put (mf16_put (mf16_put (mf16_put (mf16_put (mf16_put R
    0 0 axis) 1 1 axis) 2 2 axis) 3 3 gyro) 4 4 gyro) 5 5 gyro.

(** A 6-observation instance once the axis [v] and the latched gyroscope
    are written to its [z]. *)
Definition axis_gyro_z (z : mf16) (v g : v3d) : mf16 :=
  mf16_put (mf16_put (mf16_put (mf16_put (mf16_put (mf16_put z
    0 0 (v3d_x v)) 1 0 (v3d_y v)) 2 0 (v3d_z v))
    3 0 (v3d_x g)) 4 0 (v3d_y g)) 5 0 (v3d_z g).

(** The latched accelerometer divided by its norm. *)
Definition normalised_accelerometer (st : fusion_state) : v3d :=
  let a := m_accelerometer st in
  let norm := v3d_norm a in
  mk_v3d (fix16_div (v3d_x a) norm) (fix16_div (v3d_y a) norm)
    (fix16_div (v3d_z a) norm).

(** [kfm_accel] as [fusion_update_attitude] hands it to the correction. *)
Definition accel_observation (st : fusion_state) : kalman16_observation_t :=
  with_R (tuned_R (kfm_R (kfm_accel st)) (fix16_mul initial_r_axis alpha1))
    (with_z (axis_gyro_z (kfm_z (kfm_accel st)) (normalised_accelerometer st)
               (m_gyroscope st))
       (kfm_accel st)).

(** The projected magnetometer as a vector. *)
Definition projected_magnetometer (st : fusion_state) : v3d :=
  let '(mx, my, mz) := magnetometer_project st in mk_v3d mx my mz.

(** [kfm_magneto] as [fusion_update_orientation] hands it to the
    correction: the axis block of [R] is overwritten after the tuning. *)
Definition magneto_observation (st : fusion_state) : kalman16_observation_t :=
  let p := fix16_mul initial_r_projection alpha1 in
  with_z (axis_gyro_z (kfm_z (kfm_magneto st)) (projected_magnetometer st)
            (m_gyroscope st))
    (with_R (mf16_put (mf16_put (mf16_put
               (tuned_R (kfm_R (kfm_magneto st))
                  (fix16_mul initial_r_axis alpha1))
               0 0 p) 1 1 p) 2 2 p)
       (kfm_magneto st)).

(** The globals after one correction of a filter with an observation
    instance, the re-orthogonalisation included. *)
Definition after_attitude_gyro (st : fusion_state) : fusion_state :=
  with_kf_attitude
    (fusion_sanitize_state
       (kalman_correct_uc (kf_attitude st) (gyro_observation st)))
    (with_kfm_gyro (gyro_observation st) st).

Definition after_attitude_accel (st : fusion_state) : fusion_state :=
  with_kf_attitude
    (fusion_sanitize_state
       (kalman_correct_uc (kf_attitude st) (accel_observation st)))
    (with_kfm_accel (accel_observation st) st).

Definition after_orientation_gyro (st : fusion_state) : fusion_state :=
  with_kf_orientation
    (fusion_sanitize_state
       (kalman_correct_uc (kf_orientation st) (gyro_observation st)))
    (with_kfm_gyro (gyro_observation st) st).

Definition after_orientation_magneto (st : fusion_state) : fusion_state :=
  with_kf_orientation
    (fusion_sanitize_state
       (kalman_correct_uc (kf_orientation st) (magneto_observation st)))
    (with_kfm_magneto (magneto_observation st) st).

(** The acceleration disturbance of section 4.3:
    [| ||a|| - 1 | >= attitude_threshold]. *)
Definition disturbed (st : fusion_state) : bool :=
  let a := m_accelerometer st in
  attitude_threshold
    <=? fix16_abs (fix16_sub (norm3 (v3d_x a) (v3d_y a) (v3d_z a)) (F16 1 1)).

(** The globals on entry to the attitude correction of [fusion_update]:
    after the bootstrap write, when there is one. *)
Definition attitude_entry (st : fusion_state) : fusion_state :=
  if m_have_accelerometer st && negb (m_attitude_bootstrapped st)
  then bootstrap_attitude st else st.

(** The globals on entry to the orientation correction of [fusion_update],
    from the globals [st] that the attitude branch left. *)
Definition orientation_entry (st : fusion_state) : fusion_state :=
  if m_have_magnetometer st && negb (m_orientation_bootstrapped st)
     && m_attitude_bootstrapped st
  then bootstrap_orientation st else st.

(** The globals after the roll-and-pitch half of [fusion_update]. *)
Definition attitude_branch (st : fusion_state) : fusion_state :=
  let st0 := attitude_entry st in
  if m_have_accelerometer st && negb (disturbed st0)
  then after_attitude_accel st0 else after_attitude_gyro st0.

(** The globals after the yaw half of [fusion_update], from the globals
    that the attitude branch left. *)
Definition orientation_branch (st : fusion_state) : fusion_state :=
  let st0 := orientation_entry st in
  if m_have_magnetometer st
  then after_orientation_magneto st0 else after_orientation_gyro st0.

(** The globals after a [fusion_update] that returns. *)
Definition after_update (st : fusion_state) : fusion_state :=
  with_have_magnetometer false
    (with_have_accelerometer false (orientation_branch (attitude_branch st))).

(** Invariant I4: the orientation filter is not bootstrapped before the
    attitude filter. *)
Definition bootstrap_order (st : fusion_state) : Prop :=
  m_orientation_bootstrapped st = true -> m_attitude_bootstrapped st = true.

(** The [R] diagonals with [axis] on entries 0..2 and [gyro] on entries
    3..5 of [kfm_accel], and [projection] on entries 0..2 of
    [kfm_magneto]. *)
Definition noise_diagonal (st : fusion_state) (axis gyro projection : fix16_t)
  : Prop :=
  forall i : nat,
    ((i < 3)%nat -> mf16_get (kfm_R (kfm_accel st)) i i = axis)
    /\ ((3 <= i < 6)%nat -> mf16_get (kfm_R (kfm_accel st)) i i = gyro)
    /\ ((i < 3)%nat -> mf16_get (kfm_R (kfm_magneto st)) i i = projection).

(** *** The conversion of section 4.5, on a DCM given by its rows *)

Definition neg3 (v : v3d) : v3d :=
  mk_v3d (neg32 (v3d_x v)) (neg32 (v3d_y v)) (neg32 (v3d_z v)).

(** [u x v] *)
Definition cross3 (u v : v3d) : v3d :=
  mk_v3d (fix16_sub (fix16_mul (v3d_y u) (v3d_z v)) (fix16_mul (v3d_z u) (v3d_y v)))
         (fix16_sub (fix16_mul (v3d_z u) (v3d_x v)) (fix16_mul (v3d_x u) (v3d_z v)))
         (fix16_sub (fix16_mul (v3d_x u) (v3d_y v)) (fix16_mul (v3d_y u) (v3d_x v))).

Definition normalise3 (v : v3d) : v3d :=
  let n := norm3 (v3d_x v) (v3d_y v) (v3d_z v) in
  mk_v3d (fix16_div (v3d_x v) n) (fix16_div (v3d_y v) n) (fix16_div (v3d_z v) n).

Definition dcm_trace (r0 r1 r2 : v3d) : fix16_t :=
  fix16_add (v3d_x r0) (fix16_add (v3d_y r1) (v3d_z r2)).

(** The branch of the conversion for a positive trace, in the words of the
    spec: [s = 0.5 / sqrt(1 + tr)], [w = 0.25 / s], [x = (m21 - m12) s],
    [y = (m02 - m20) s], [z = (m10 - m01) s]. *)
Definition quaternion_of_positive_trace (r0 r1 r2 : v3d) : qf16 :=
  let s := fix16_div (F16 5 10)
             (fix16_sqrt (fix16_add (F16 1 1) (dcm_trace r0 r1 r2))) in
  mk_qf16 (fix16_div (F16 25 100) s)
          (fix16_mul (fix16_sub (v3d_y r2) (v3d_z r1)) s)
          (fix16_mul (fix16_sub (v3d_z r0) (v3d_x r2)) s)
          (fix16_mul (fix16_sub (v3d_x r1) (v3d_y r0)) s).

(** The trace-based conversion of the DCM with rows [r0], [r1], [r2] to a
    quaternion, before normalisation: the positive-trace branch, else the
    branch of the largest diagonal entry. *)
Definition dcm_to_quaternion (r0 r1 r2 : v3d) : qf16 :=
  let m00 := v3d_x r0 in let m01 := v3d_y r0 in let m02 := v3d_z r0 in
  let m10 := v3d_x r1 in let m11 := v3d_y r1 in let m12 := v3d_z r1 in
  let m20 := v3d_x r2 in let m21 := v3d_y r2 in let m22 := v3d_z r2 in
  let root (d : fix16_t) :=
    fix16_mul (F16 2 1) (fix16_sqrt (fix16_add (F16 1 1) d)) in
  if 0 <? dcm_trace r0 r1 r2 then quaternion_of_positive_trace r0 r1 r2
  else if (m11 <? m00) && (m22 <? m00) then
    let s := root (fix16_sub m00 (fix16_add m11 m22)) in
    mk_qf16 (fix16_div (fix16_sub m21 m12) s) (fix16_mul (F16 25 100) s)
      (fix16_div (fix16_add m01 m10) s) (fix16_div (fix16_add m02 m20) s)
  else if m22 <? m11 then
    let s := root (fix16_sub m11 (fix16_add m00 m22)) in
    mk_qf16 (fix16_div (fix16_sub m02 m20) s) (fix16_div (fix16_add m01 m10) s)
      (fix16_mul (F16 25 100) s) (fix16_div (fix16_add m12 m21) s)
  else
    let s := root (fix16_sub m22 (fix16_add m00 m11)) in
    mk_qf16 (fix16_div (fix16_sub m10 m01) s) (fix16_div (fix16_add m02 m20) s)
      (fix16_div (fix16_add m12 m21) s) (fix16_mul (F16 25 100) s).

(** The quaternion of the DCM whose middle row is [b], whose bottom row is
    [-a] and whose top row is [top]. *)
Definition quaternion_with_top_row (top a b : v3d) : qf16 :=
  qf16_normalize (dcm_to_quaternion top b (neg3 a)).

(** The top row as the spec words it: [normalise((-a) x b)]. *)
Definition top_row_as_specified (a b : v3d) : v3d :=
  normalise3 (cross3 (neg3 a) b).

(** The top row as the source computes it: [normalise(b x (-a))]. *)
Definition top_row_of_source (a b : v3d) : v3d :=
  normalise3 (cross3 b (neg3 a)).

End Fusion.

(** ** A reference kernel *)

(** Modelled from the spec: the fixed-point math kernel and the Kalman
    primitives of sections 2 and 6, whose sources (fixmath.h, fixvector3d.h,
    fixquat.h, fixmatrix.h and fixkalman.h) are not under src/.  The spec
    gives Q16.16 scalars with [1.0 = 0x00010000], an overflow that is
    detected, the norm of a vector, dense matrices with their dimensions,
    initialisers that set the dimensions and zero the storage,
    [P <- A P A' + Q], and the correction with the gain
    [K = P H' (H P H' + R)^-1] and the Joseph update of [P].  Where the
    spec is silent the simplest convention is taken: an overflow gives the
    value [fix16_overflow] that the unit compares sums with, a quotient by
    zero is the most negative number, products, quotients and roots round
    to nearest, and a norm is the root of the exact sum of squares. *)
Module Reference.

(** The bounds of [int32_t] and the overflow marker. *)
Definition fix16_maximum : fix16_t := 2 ^ 31 - 1.
Definition fix16_minimum : fix16_t := - 2 ^ 31.
Definition fix16_overflow : fix16_t := - 2 ^ 31.

(** The exact result when it is representable, else the marker. *)
Definition checked (v : Z) : fix16_t :=
  if (fix16_minimum <=? v) && (v <=? fix16_maximum) then v else fix16_overflow.

(** Quotient rounded to the nearest integer, ties away from zero. *)
Definition div_nearest (n d : Z) : Z :=
  Z.sgn n * Z.sgn d * ((2 * Z.abs n + Z.abs d) / (2 * Z.abs d)).

(** The scalar operations on the Q16.16 integers. *)
Definition add (a b : fix16_t) : fix16_t := checked (a + b).
Definition sub (a b : fix16_t) : fix16_t := checked (a - b).
Definition mul (a b : fix16_t) : fix16_t := checked (div_nearest (a * b) 65536).
Definition div (a b : fix16_t) : fix16_t :=
  if b =? 0 then fix16_minimum else checked (div_nearest (a * 65536) b).
Definition sq (a : fix16_t) : fix16_t := mul a a.
Definition abs (a : fix16_t) : fix16_t := if a <? 0 then neg32 a else a.

(** Integer square root rounded to nearest. *)
Definition isqrt_nearest (n : Z) : Z :=
  let r := Z.sqrt n in if r <? n - r * r then r + 1 else r.

(** Odd extension to negative arguments. *)
Definition sqrt (a : fix16_t) : fix16_t :=
  if a <? 0 then - isqrt_nearest (- a * 65536) else isqrt_nearest (a * 65536).

(** [pi/4] and [3 pi/4] in Q16.16. *)
Definition PI_DIV_4 : fix16_t := 51472.
Definition THREE_PI_DIV_4 : fix16_t := 154415.

(** A cubic approximation of the arc tangent on each half plane. *)
Definition atan2 (inY inX : fix16_t) : fix16_t :=
  let abs_inY := abs inY in
  let angle :=
    if 0 <=? inX then
      let r := div (sub inX abs_inY) (add inX abs_inY) in
      let r_3 := mul (mul r r) r in
      add (sub (mul 12864 r_3) (mul 64336 r)) PI_DIV_4
    else
      let r := div (add inX abs_inY) (sub abs_inY inX) in
      let r_3 := mul (mul r r) r in
      add (sub (mul 12864 r_3) (mul 64336 r)) THREE_PI_DIV_4 in
  if inY <? 0 then neg32 angle else angle.

(** The arc sine through the arc tangent; 0 outside [-1, 1]. *)
Definition asin (v : fix16_t) : fix16_t :=
  if (65536 <? v) || (v <? -65536) then 0
  else atan2 (div v (sqrt (sub 65536 (mul v v)))) 65536.

(** The norm of a vector and the normalisation of a quaternion. *)
Definition norm_v3d (v : v3d) : fix16_t :=
  checked (isqrt_nearest (v3d_x v * v3d_x v + v3d_y v * v3d_y v
                          + v3d_z v * v3d_z v)).

Definition normalize_qf16 (q : qf16) : qf16 :=
  let n := checked (isqrt_nearest (qf16_a q * qf16_a q + qf16_b q * qf16_b q
                                   + qf16_c q * qf16_c q + qf16_d q * qf16_d q)) in
  mk_qf16 (div (qf16_a q) n) (div (qf16_b q) n) (div (qf16_c q) n)
    (div (qf16_d q) n).

(** *** Dense matrices as lists of rows *)

Definition mat := list (list Z).

Definition to_mat (m : mf16) : mat :=
  map (fun i => map (fun j => mf16_get m i j) (seq 0 (columns m)))
    (seq 0 (rows m)).

Definition cells (nr nc : nat) (f : nat -> nat -> Z) : gmap (nat * nat) Z :=
  list_to_map
    (flat_map (fun i => map (fun j => ((i, j), f i j)) (seq 0 nc)) (seq 0 nr)).

Definition entry (a : mat) (i j : nat) : Z := nth j (nth i a []) 0.

Definition of_mat (nr nc : nat) (a : mat) : mf16 :=
  {| rows := nr; columns := nc; errors := 0; data := cells nr nc (entry a) |}.

Definition zeros (nr nc : nat) : mf16 :=
  {| rows := nr; columns := nc; errors := 0; data := cells nr nc (fun _ _ => 0) |}.

Definition dot (r c : list Z) : Z :=
  fold_left add (zip_with mul r c) 0.

Definition transpose (nc : nat) (a : mat) : mat :=
  map (fun j => map (fun r => nth j r 0) a) (seq 0 nc).

Definition mmul (a b : mat) (nc : nat) : mat :=
  let bt := transpose nc b in
  map (fun r => map (fun c => dot r c) bt) a.

Definition madd (a b : mat) : mat := zip_with (zip_with add) a b.
Definition msub (a b : mat) : mat := zip_with (zip_with sub) a b.

Definition identity (n : nat) : mat :=
  map (fun i => map (fun j => if (i =? j)%nat then 65536 else 0) (seq 0 n))
    (seq 0 n).

(** One pivot of the Gauss-Jordan elimination on the pair (matrix, inverse
    under construction); no row exchange. *)
Definition pivot (k : nat) (mi : mat * mat) : mat * mat :=
  let '(m, inv) := mi in
  let p := entry m k k in
  let rm := map (fun v => div v p) (nth k m []) in
  let ri := map (fun v => div v p) (nth k inv []) in
  let elim (pr : list Z) (i : nat) (r : list Z) :=
    if (i =? k)%nat then pr
    else zip_with (fun v w => sub v (mul (entry m i k) w)) r pr in
  (imap (elim rm) m, imap (elim ri) inv).

Definition inverse (n : nat) (a : mat) : mat :=
  snd (fold_left (fun mi k => pivot k mi) (seq 0 n) (a, identity n)).

(** *** Kalman primitives *)

Definition fill_diagonal (m : mf16) (v : fix16_t) : mf16 :=
  {| rows := rows m; columns := columns m; errors := errors m;
     data := cells (rows m) (columns m)
               (fun i j => if (i =? j)%nat then v else 0) |}.

Definition filter_initialize_uc (kf : kalman16_uc_t) (states : nat)
  : kalman16_uc_t :=
  mk_kalman16_uc (zeros states 1) (zeros states states) (zeros states states)
    (zeros states states).

Definition observation_initialize (kfm : kalman16_observation_t)
  (states observations : nat) : kalman16_observation_t :=
  mk_kalman16_observation (zeros observations states)
    (zeros observations observations) (zeros observations 1).

(** [P <- A P A' + Q] *)
Definition predict_P_uc (kf : kalman16_uc_t) : kalman16_uc_t :=
  let n := rows (kf_P kf) in
  let a := to_mat (kf_A kf) in
  let ap := mmul a (to_mat (kf_P kf)) n in
  let apat := mmul ap (transpose n a) n in
  with_P (of_mat n n (madd apat (to_mat (kf_Q kf)))) kf.

(** [y = z - H x], [S = H P H' + R], [K = P H' S^-1], [x <- x + K y],
    [P <- (I - K H) P (I - K H)' + K R K']. *)
Definition correct_uc (kf : kalman16_uc_t) (kfm : kalman16_observation_t)
  : kalman16_uc_t :=
  let n := rows (kf_x kf) in
  let m := rows (kfm_z kfm) in
  let x := to_mat (kf_x kf) in
  let p := to_mat (kf_P kf) in
  let h := to_mat (kfm_H kfm) in
  let r := to_mat (kfm_R kfm) in
  let ht := transpose n h in
  let y := msub (to_mat (kfm_z kfm)) (mmul h x 1) in
  let pht := mmul p ht m in
  let s := madd (mmul h pht m) r in
  let k := mmul pht (inverse m s) m in
  let x' := madd x (mmul k y 1) in
  let ikh := msub (identity n) (mmul k h n) in
  let p' := madd (mmul (mmul ikh p n) (transpose n ikh) n)
                 (mmul (mmul k r m) (transpose m k) n) in
  with_P (of_mat n n p') (with_x (of_mat n 1 x') kf).

(** Modelled from the spec: the reference instance of the libraries the
    unit calls, with [FIXMATRIX_MAX_SIZE = 8]. *)
Definition kernel : MathKernel :=
  {| FIXMATRIX_MAX_SIZE := 8;
     FIXMATRIX_MAX_SIZE_ge := ltac:(lia);
     fix16_add := add; fix16_sub := sub; fix16_mul := mul; fix16_div := div;
     fix16_sq := sq; fix16_sqrt := sqrt; fix16_abs := abs;
     fix16_asin := asin; fix16_atan2 := atan2;
     v3d_norm := norm_v3d; qf16_normalize := normalize_qf16;
     mf16_fill_diagonal := fill_diagonal;
     kalman_filter_initialize_uc := filter_initialize_uc;
     kalman_observation_initialize := observation_initialize;
     kalman_predict_P_uc := predict_P_uc;
     kalman_correct_uc := correct_uc |}.

End Reference.

(** ** Concrete runs on the reference kernel *)

Section Runs.

Local Existing Instance Reference.kernel.

(** The globals after [fusion_initialize] on the static storage. *)
Definition initialised : fusion_state :=
  default power_on (fusion_initialize power_on).

(** Latch an accelerometer and a magnetometer sample with a gyroscope at
    rest. *)
Definition latch (ax ay az mx my mz : fix16_t) : list call :=
  [call_set_accelerometer ax ay az; call_set_gyroscope 0 0 0;
   call_set_magnetometer mx my mz].

(** One loop iteration with 0.01 s: predict, then update. *)
Definition iterate : list call :=
  [call_predict (F16 1 100); call_update (F16 1 100)].

(** Scenario 1 of the spec: accelerometer (0,0,1), magnetometer (1,0,0). *)
Definition level_calls : list call :=
  latch 0 0 (F16 1 1) (F16 1 1) 0 0 ++ iterate.
Definition level : fusion_state :=
  default power_on (run level_calls initialised).

(** The same with the accelerometer at (0,0,-1). *)
Definition inverted_calls : list call :=
  latch 0 0 (F16 (-1) 1) (F16 1 1) 0 0 ++ iterate.
Definition inverted : fusion_state :=
  default power_on (run inverted_calls initialised).

(** The samples of scenario 1 latched, before the iteration. *)
Definition level_latched : fusion_state :=
  default power_on (run (latch 0 0 (F16 1 1) (F16 1 1) 0 0) initialised).

(** Scenario 5 of the spec: a magnetometer sample only, on the initialised
    filters. *)
Definition magnetometer_only : fusion_state :=
  fusion_set_magnetometer (F16 1 1) 0 0 initialised.
Definition magnetometer_only_updated : fusion_state :=
  default power_on (fusion_update (F16 1 100) magnetometer_only).

(** Scenario 4 of the spec as a first sample: accelerometer (2,0,0). *)
Definition first_sample_disturbed : fusion_state :=
  fusion_set_accelerometer (F16 2 1) 0 0 initialised.

Definition first_sample_updated : fusion_state :=
  default power_on (fusion_update (F16 1 100) first_sample_disturbed).

Definition level_latched_updated : fusion_state :=
  default power_on (fusion_update (F16 1 100) level_latched).

(** The first prediction after the initialisation. *)
Definition predicted : fusion_state :=
  default power_on (fusion_predict (F16 1 100) initialised).

End Runs.


(** ** Facts about the driver, for every kernel *)

Section FusionFacts.

Context {K : MathKernel}.

(** *** Matrix cells *)

Lemma mf16_get_put_eq (m : mf16) (r c : nat) (v : fix16_t) :
  mf16_get (mf16_put m r c v) r c = v.
Proof. unfold mf16_get, mf16_put; simpl. by rewrite lookup_insert_eq. Qed.

Lemma mf16_get_put_ne (m : mf16) (r c r' c' : nat) (v : fix16_t) :
  (r, c) <> (r', c') ->
  mf16_get (mf16_put m r c v) r' c' = mf16_get m r' c'.
Proof.
  intros Hne. unfold mf16_get, mf16_put; simpl.
  by rewrite lookup_insert_ne.
Qed.

Lemma matrix_set_Some (m m' : mf16) (r c : nat) (v : fix16_t) :
  matrix_set m r c v = Some m' -> m' = mf16_put m r c v.
Proof.
  unfold matrix_set. case_match; [|discriminate].
  by intros [= <-].
Qed.

Lemma matrix_set_ok (m : mf16) (r c : nat) (v : fix16_t) :
  (r < 6)%nat -> (c < 6)%nat -> (r < rows m)%nat -> (c < columns m)%nat ->
  matrix_set m r c v = Some (mf16_put m r c v).
Proof.
  intros Hr Hc Hrows Hcols. unfold matrix_set.
  pose proof FIXMATRIX_MAX_SIZE_ge as Hmax.
  assert ((r <=? FIXMATRIX_MAX_SIZE)%nat = true) as -> by (apply Nat.leb_le; lia).
  assert ((c <=? FIXMATRIX_MAX_SIZE)%nat = true) as -> by (apply Nat.leb_le; lia).
  assert ((r <? rows m)%nat = true) as -> by (by apply Nat.ltb_lt).
  assert ((c <? columns m)%nat = true) as -> by (by apply Nat.ltb_lt).
  reflexivity.
Qed.

Lemma fits_spec (m : mf16) (nr nc : nat) :
  fits m nr nc = true <-> (nr <= rows m)%nat /\ (nc <= columns m)%nat.
Proof.
  unfold fits. rewrite andb_true_iff, !Nat.leb_le. tauto.
Qed.

End FusionFacts.


(** Peel the next [matrix_set] off a chain that is known to succeed. *)
Ltac peel_set :=
  match goal with
  | Hrun : context [matrix_set ?m ?r ?c ?v] |- _ =>
      let E := fresh "E" in
      destruct (matrix_set m r c v) eqn:E;
      [apply matrix_set_Some in E; subst | discriminate Hrun]
  end.

(** Read a cell back through the writes that precede it. *)
Ltac read_cells :=
  repeat first
    [ rewrite mf16_get_put_eq
    | rewrite mf16_get_put_ne by discriminate ].

(** Discharge the next [matrix_set] of a chain from the dimensions. *)
Ltac pass_set :=
  rewrite matrix_set_ok by (simpl; lia).

Section UpdateFacts.

Context {K : MathKernel}.

(** *** The corrections of [fusion_update] *)

Lemma fusion_update_attitude_gyro_Some dt st st' :
  fusion_update_attitude_gyro dt st = Some st' -> st' = after_attitude_gyro st.
Proof.
  unfold fusion_update_attitude_gyro. intros Hrun.
  repeat peel_set. by injection Hrun as <-.
Qed.

Lemma fusion_update_attitude_gyro_ok dt st :
  fits (kfm_z (kfm_gyro st)) 3 1 = true ->
  fusion_update_attitude_gyro dt st = Some (after_attitude_gyro st).
Proof.
  intros [Hr Hc]%fits_spec. unfold fusion_update_attitude_gyro.
  repeat pass_set. reflexivity.
Qed.

Lemma disturbed_detected st :
  disturbed st = negb (acceleration_detected st =? 0).
Proof.
  unfold disturbed, acceleration_detected.
  rewrite Z.leb_antisym. by case_match.
Qed.

Lemma fusion_update_attitude_Some dt st st' :
  fusion_update_attitude dt st = Some st' ->
  st' = if disturbed st then after_attitude_gyro st
        else after_attitude_accel st.
Proof.
  rewrite disturbed_detected.
  unfold fusion_update_attitude. destruct (acceleration_detected st =? 0); simpl.
  - unfold tune_measurement_noise. simpl. intros Hrun.
    repeat peel_set. by injection Hrun as <-.
  - apply fusion_update_attitude_gyro_Some.
Qed.

Lemma fusion_update_attitude_ok dt st :
  fits (kfm_z (kfm_gyro st)) 3 1 = true ->
  fits (kfm_z (kfm_accel st)) 6 1 = true ->
  fits (kfm_R (kfm_accel st)) 6 6 = true ->
  fusion_update_attitude dt st =
    Some (if disturbed st then after_attitude_gyro st
          else after_attitude_accel st).
Proof.
  intros Hg [Hzr Hzc]%fits_spec [HRr HRc]%fits_spec.
  rewrite disturbed_detected.
  unfold fusion_update_attitude. destruct (acceleration_detected st =? 0); simpl.
  - repeat pass_set. unfold tune_measurement_noise. simpl.
    repeat pass_set. reflexivity.
  - by apply fusion_update_attitude_gyro_ok.
Qed.

Lemma fusion_update_orientation_gyro_Some dt st st' :
  fusion_update_orientation_gyro dt st = Some st' ->
  st' = after_orientation_gyro st.
Proof.
  unfold fusion_update_orientation_gyro. intros Hrun.
  repeat peel_set. by injection Hrun as <-.
Qed.

Lemma fusion_update_orientation_gyro_ok dt st :
  fits (kfm_z (kfm_gyro st)) 3 1 = true ->
  fusion_update_orientation_gyro dt st = Some (after_orientation_gyro st).
Proof.
  intros [Hr Hc]%fits_spec. unfold fusion_update_orientation_gyro.
  repeat pass_set. reflexivity.
Qed.

Lemma fusion_update_orientation_Some dt st st' :
  fusion_update_orientation dt st = Some st' ->
  st' = after_orientation_magneto st.
Proof.
  unfold fusion_update_orientation, after_orientation_magneto,
    magneto_observation, projected_magnetometer.
  destruct (magnetometer_project st) as [[mx my] mz].
  unfold tune_measurement_noise. simpl. intros Hrun.
  repeat peel_set. by injection Hrun as <-.
Qed.

Lemma fusion_update_orientation_ok dt st :
  fits (kfm_z (kfm_magneto st)) 6 1 = true ->
  fits (kfm_R (kfm_magneto st)) 6 6 = true ->
  fusion_update_orientation dt st = Some (after_orientation_magneto st).
Proof.
  intros [Hzr Hzc]%fits_spec [HRr HRc]%fits_spec.
  unfold fusion_update_orientation, after_orientation_magneto,
    magneto_observation, projected_magnetometer.
  destruct (magnetometer_project st) as [[mx my] mz].
  unfold tune_measurement_noise. simpl.
  repeat pass_set. simpl. repeat pass_set. reflexivity.
Qed.

(** *** The two halves of [fusion_update] *)

Lemma attitude_half_Some dt st st1 :
  (if m_have_accelerometer st
   then fusion_update_attitude dt
          (if negb (m_attitude_bootstrapped st) then bootstrap_attitude st
           else st)
   else fusion_update_attitude_gyro dt st) = Some st1 ->
  st1 = attitude_branch st.
Proof.
  unfold attitude_branch, attitude_entry.
  destruct (m_have_accelerometer st); cbn [andb].
  - intros E%fusion_update_attitude_Some. rewrite E.
    by destruct (disturbed _).
  - by intros E%fusion_update_attitude_gyro_Some.
Qed.

Lemma orientation_half_Some dt st st2 :
  (if m_have_magnetometer st
   then fusion_update_orientation dt
          (if negb (m_orientation_bootstrapped st) && m_attitude_bootstrapped st
           then bootstrap_orientation st else st)
   else fusion_update_orientation_gyro dt st) = Some st2 ->
  st2 = orientation_branch st.
Proof.
  unfold orientation_branch, orientation_entry.
  destruct (m_have_magnetometer st); cbn [andb].
  - by intros E%fusion_update_orientation_Some.
  - by intros E%fusion_update_orientation_gyro_Some.
Qed.

Lemma fusion_update_Some dt st st' :
  fusion_update dt st = Some st' -> st' = after_update st.
Proof.
  unfold fusion_update, after_update. intros Hrun.
  match type of Hrun with
  | match ?e with _ => _ end = _ => destruct e as [st1|] eqn:E1; [|discriminate]
  end.
  apply attitude_half_Some in E1. subst st1.
  match type of Hrun with
  | match ?e with _ => _ end = _ => destruct e as [st2|] eqn:E2; [|discriminate]
  end.
  apply orientation_half_Some in E2. subst st2.
  by injection Hrun as <-.
Qed.

(** Dimensions kept by the record updates of the attitude half. *)
Lemma attitude_branch_ready st :
  update_ready (attitude_branch st) = update_ready st.
Proof.
  unfold attitude_branch, attitude_entry.
  destruct (m_have_accelerometer st), (m_attitude_bootstrapped st);
    cbn [andb negb]; try destruct (disturbed _); reflexivity.
Qed.

Lemma fusion_update_ok dt st :
  update_ready st = true -> fusion_update dt st = Some (after_update st).
Proof.
  intros Hready.
  assert (Hready1 : update_ready (attitude_branch st) = true)
    by by rewrite attitude_branch_ready.
  unfold update_ready in Hready.
  apply andb_true_iff in Hready as [Hready HRm].
  apply andb_true_iff in Hready as [Hready Hzm].
  apply andb_true_iff in Hready as [Hready HRa].
  apply andb_true_iff in Hready as [Hzg Hza].
  unfold fusion_update.
  assert ((if m_have_accelerometer st
   then fusion_update_attitude dt
          (if negb (m_attitude_bootstrapped st) then bootstrap_attitude st
           else st)
   else fusion_update_attitude_gyro dt st) = Some (attitude_branch st)) as ->.
  { unfold attitude_branch, attitude_entry.
    destruct (m_have_accelerometer st); cbn [andb].
    - rewrite fusion_update_attitude_ok.
      + by destruct (disturbed _).
      + by destruct (m_attitude_bootstrapped st).
      + by destruct (m_attitude_bootstrapped st).
      + by destruct (m_attitude_bootstrapped st).
    - by apply fusion_update_attitude_gyro_ok. }
  set (st1 := attitude_branch st) in *.
  unfold update_ready in Hready1.
  apply andb_true_iff in Hready1 as [Hready1 HRm1].
  apply andb_true_iff in Hready1 as [Hready1 Hzm1].
  apply andb_true_iff in Hready1 as [Hready1 HRa1].
  apply andb_true_iff in Hready1 as [Hzg1 Hza1].
  assert ((if m_have_magnetometer st1
   then fusion_update_orientation dt
          (if negb (m_orientation_bootstrapped st1) && m_attitude_bootstrapped st1
           then bootstrap_orientation st1 else st1)
   else fusion_update_orientation_gyro dt st1) = Some (orientation_branch st1)) as ->.
  { unfold orientation_branch, orientation_entry.
    destruct (m_have_magnetometer st1); cbn [andb].
    - apply fusion_update_orientation_ok;
        destruct (negb (m_orientation_bootstrapped st1) && m_attitude_bootstrapped st1);
        try assumption; unfold bootstrap_orientation;
        destruct (magnetometer_project st1) as [[? ?] ?]; assumption.
    - by apply fusion_update_orientation_gyro_ok. }
  reflexivity.
Qed.

(** *** Flags across [fusion_update] *)

Lemma attitude_branch_flags st :
  latches (attitude_branch st) = latches st
  /\ m_attitude_bootstrapped (attitude_branch st)
     = m_attitude_bootstrapped st || m_have_accelerometer st
  /\ m_orientation_bootstrapped (attitude_branch st)
     = m_orientation_bootstrapped st.
Proof.
  unfold attitude_branch, attitude_entry.
  destruct (m_have_accelerometer st) eqn:Ha, (m_attitude_bootstrapped st) eqn:Hb;
    cbn [andb negb]; try destruct (disturbed _);
    unfold latches; simpl; rewrite ?Ha, ?Hb; auto.
Qed.

Lemma orientation_branch_flags st :
  latches (orientation_branch st) = latches st
  /\ m_attitude_bootstrapped (orientation_branch st) = m_attitude_bootstrapped st
  /\ m_orientation_bootstrapped (orientation_branch st)
     = m_orientation_bootstrapped st
       || (m_have_magnetometer st && m_attitude_bootstrapped st).
Proof.
  unfold orientation_branch, orientation_entry, bootstrap_orientation.
  destruct (magnetometer_project st) as [[mx my] mz].
  destruct (m_have_magnetometer st) eqn:Hm, (m_orientation_bootstrapped st) eqn:Ho,
    (m_attitude_bootstrapped st) eqn:Hb;
    cbn [andb negb]; unfold latches; simpl; rewrite ?Hm, ?Ho, ?Hb; auto.
Qed.

Lemma after_update_flags st :
  m_have_accelerometer (after_update st) = false
  /\ m_have_magnetometer (after_update st) = false
  /\ m_have_gyroscope (after_update st) = m_have_gyroscope st
  /\ m_attitude_bootstrapped (after_update st)
     = m_attitude_bootstrapped st || m_have_accelerometer st
  /\ m_orientation_bootstrapped (after_update st)
     = m_orientation_bootstrapped st
       || (m_have_magnetometer st
           && (m_attitude_bootstrapped st || m_have_accelerometer st)).
Proof.
  destruct (attitude_branch_flags st) as (Hl1 & Ha1 & Ho1).
  destruct (orientation_branch_flags (attitude_branch st)) as (Hl2 & Ha2 & Ho2).
  unfold after_update. simpl.
  rewrite Ha2, Ho2, Ha1, Ho1.
  unfold latches in *.
  injection Hl2 as _ _ _ _ Hg2 Hm2. injection Hl1 as _ _ _ _ Hg1 Hm1.
  rewrite Hg2, Hg1. rewrite Hm1. auto.
Qed.

(** *** Initialisation and prediction keep the latches and the flags *)

Lemma update_state_matrix_from_state_Some kf dt kf' :
  update_state_matrix_from_state kf dt = Some kf' ->
  kf_x kf' = kf_x kf /\ kf_P kf' = kf_P kf /\ kf_Q kf' = kf_Q kf.
Proof.
  unfold update_state_matrix_from_state. intros Hrun.
  repeat peel_set. by injection Hrun as <-.
Qed.

Lemma update_state_matrix_from_state_ok kf dt :
  fits (kf_A kf) 3 6 = true ->
  exists kf', update_state_matrix_from_state kf dt = Some kf'.
Proof.
  intros [Hr Hc]%fits_spec. unfold update_state_matrix_from_state.
  repeat pass_set. eauto.
Qed.

Lemma fusion_predict_Some dt st st' :
  fusion_predict dt st = Some st' ->
  exists kfa kfo,
    update_state_matrix_from_state (kf_attitude st) dt = Some kfa
    /\ update_state_matrix_from_state (kf_orientation st) dt = Some kfo
    /\ st' = with_kf_orientation
               (fusion_sanitize_state
                  (kalman_predict_P_uc (fusion_fastpredict_X kfo dt)))
               (with_kf_attitude
                  (fusion_sanitize_state
                     (kalman_predict_P_uc (fusion_fastpredict_X kfa dt))) st).
Proof.
  unfold fusion_predict. intros Hrun.
  destruct (update_state_matrix_from_state (kf_attitude st) dt) as [kfa|];
    [|discriminate].
  cbn [kf_orientation with_kf_attitude] in Hrun.
  destruct (update_state_matrix_from_state (kf_orientation st) dt) as [kfo|];
    [|discriminate].
  exists kfa, kfo. by injection Hrun as <-.
Qed.

Lemma fusion_predict_ok dt st :
  predict_ready st = true -> exists st', fusion_predict dt st = Some st'.
Proof.
  unfold predict_ready. intros [Ha Ho]%andb_true_iff.
  destruct (update_state_matrix_from_state_ok (kf_attitude st) dt Ha) as [kfa Ea].
  destruct (update_state_matrix_from_state_ok (kf_orientation st) dt Ho) as [kfo Eo].
  unfold fusion_predict. rewrite Ea. cbn [kf_orientation with_kf_attitude].
  rewrite Eo. eauto.
Qed.

Lemma fusion_predict_flags dt st st' :
  fusion_predict dt st = Some st' ->
  latches st' = latches st
  /\ m_attitude_bootstrapped st' = m_attitude_bootstrapped st
  /\ m_orientation_bootstrapped st' = m_orientation_bootstrapped st.
Proof.
  intros (kfa & kfo & _ & _ & ->)%fusion_predict_Some. auto.
Qed.

Lemma initialize_system_flags st st' :
  initialize_system st = Some st' ->
  latches st' = latches st
  /\ m_attitude_bootstrapped st' = m_attitude_bootstrapped st
  /\ m_orientation_bootstrapped st' = m_orientation_bootstrapped st.
Proof.
  unfold initialize_system. intros Hrun.
  destruct (initialize_system_filter (kf_orientation st) _); [|discriminate].
  cbn [kf_attitude with_kf_orientation] in Hrun.
  destruct (initialize_system_filter (kf_attitude st) _); [|discriminate].
  by injection Hrun as <-.
Qed.

Lemma initialize_observation_gyro_flags st st' :
  initialize_observation_gyro st = Some st' ->
  latches st' = latches st
  /\ m_attitude_bootstrapped st' = m_attitude_bootstrapped st
  /\ m_orientation_bootstrapped st' = m_orientation_bootstrapped st.
Proof.
  unfold initialize_observation_gyro. intros Hrun.
  repeat peel_set. by injection Hrun as <-.
Qed.

Lemma initialize_observation_accel_flags st st' :
  initialize_observation_accel st = Some st' ->
  latches st' = latches st
  /\ m_attitude_bootstrapped st' = m_attitude_bootstrapped st
  /\ m_orientation_bootstrapped st' = m_orientation_bootstrapped st.
Proof.
  unfold initialize_observation_accel. intros Hrun.
  destruct (initialize_observation _ _ _); [|discriminate].
  by injection Hrun as <-.
Qed.

Lemma initialize_observation_magneto_flags st st' :
  initialize_observation_magneto st = Some st' ->
  latches st' = latches st
  /\ m_attitude_bootstrapped st' = m_attitude_bootstrapped st
  /\ m_orientation_bootstrapped st' = m_orientation_bootstrapped st.
Proof.
  unfold initialize_observation_magneto. intros Hrun.
  destruct (initialize_observation _ _ _); [|discriminate].
  by injection Hrun as <-.
Qed.

Lemma fusion_initialize_flags st st' :
  fusion_initialize st = Some st' ->
  latches st' = latches st
  /\ m_attitude_bootstrapped st' = m_attitude_bootstrapped st
  /\ m_orientation_bootstrapped st' = m_orientation_bootstrapped st.
Proof.
  unfold fusion_initialize. intros Hrun.
  destruct (initialize_system st) as [s1|] eqn:E1; [|discriminate].
  destruct (initialize_observation_gyro s1) as [s2|] eqn:E2; [|discriminate].
  destruct (initialize_observation_accel s2) as [s3|] eqn:E3; [|discriminate].
  apply initialize_system_flags in E1 as (? & ? & ?).
  apply initialize_observation_gyro_flags in E2 as (? & ? & ?).
  apply initialize_observation_accel_flags in E3 as (? & ? & ?).
  apply initialize_observation_magneto_flags in Hrun as (? & ? & ?).
  repeat split; congruence.
Qed.

(** *** The bootstrap order is an invariant of every call *)

Lemma step_bootstrap_order c st st' :
  step c st = Some st' -> bootstrap_order st -> bootstrap_order st'.
Proof.
  unfold bootstrap_order.
  destruct c; simpl; intros Hrun Hinv.
  - apply fusion_initialize_flags in Hrun as (_ & -> & ->). exact Hinv.
  - by injection Hrun as <-.
  - by injection Hrun as <-.
  - by injection Hrun as <-.
  - apply fusion_predict_flags in Hrun as (_ & -> & ->). exact Hinv.
  - apply fusion_update_Some in Hrun as ->.
    destruct (after_update_flags st) as (_ & _ & _ & -> & ->).
    destruct (m_orientation_bootstrapped st), (m_attitude_bootstrapped st),
      (m_have_accelerometer st), (m_have_magnetometer st); simpl; auto.
  - by injection Hrun as <-.
  - by injection Hrun as <-.
Qed.

Lemma run_bootstrap_order cs : forall st st',
  run cs st = Some st' -> bootstrap_order st -> bootstrap_order st'.
Proof.
  induction cs as [|c cs IH]; simpl; intros st st' Hrun Hinv.
  - by injection Hrun as <-.
  - destruct (step c st) as [st1|] eqn:E; [|discriminate].
    eapply IH; [exact Hrun|]. eapply step_bootstrap_order; eauto.
Qed.

(** Claim C7 (invariant I4).  From the initialised globals, after any
    sequence of calls of the exported functions (the setters, the
    prediction and the update among them), the orientation filter is
    bootstrapped only if the attitude filter is: the orientation flag never
    becomes true while the attitude flag is false. *)
Theorem C7_orientation_bootstrapped_after_attitude
  (cs : list call) (st0 st : fusion_state) :
  fusion_initialize power_on = Some st0 ->
  run cs st0 = Some st ->
  m_orientation_bootstrapped st = true -> m_attitude_bootstrapped st = true.
Proof.
  intros Hinit Hrun.
  apply (run_bootstrap_order cs st0 st Hrun).
  apply fusion_initialize_flags in Hinit as (_ & Ha & Ho).
  unfold bootstrap_order. rewrite Ho. discriminate.
Qed.

(** Claim C9.  The [deltaT] argument of [fusion_update] has no effect:
    from the same globals, two updates with any two time steps give the same
    result, whether that is the same globals (filters, covariances, noise
    matrices, buffers and flags) or the same fatal stop. *)
Theorem C9_update_ignores_deltaT (dt1 dt2 : fix16_t) (st : fusion_state) :
  fusion_update dt1 st = fusion_update dt2 st.
Proof. reflexivity. Qed.

(** Claim C4.  The fast state prediction replaces the axis row
    [(c1, c2, c3)] by [c1 + (c3 wy - c2 wz) dt], [c2 + (c1 wz - c3 wx) dt],
    [c3 + (c2 wx - c1 wy) dt] in the Q16.16 arithmetic of the kernel and
    keeps the angular velocity [(wx, wy, wz)]; in [fusion_predict] it is
    applied to both filters on their entry state, before the covariance
    prediction and the re-orthogonalisation. *)
Theorem C4_fast_state_prediction (kf : kalman16_uc_t) (dt : fix16_t) :
  let c1 := v3d_x (axis_row kf) in
  let c2 := v3d_y (axis_row kf) in
  let c3 := v3d_z (axis_row kf) in
  let wx := v3d_x (rate_row kf) in
  let wy := v3d_y (rate_row kf) in
  let wz := v3d_z (rate_row kf) in
  axis_row (fusion_fastpredict_X kf dt)
  = mk_v3d
      (fix16_add c1 (fix16_mul (fix16_sub (fix16_mul c3 wy) (fix16_mul c2 wz)) dt))
      (fix16_add c2 (fix16_mul (fix16_sub (fix16_mul c1 wz) (fix16_mul c3 wx)) dt))
      (fix16_add c3 (fix16_mul (fix16_sub (fix16_mul c2 wx) (fix16_mul c1 wy)) dt))
  /\ rate_row (fusion_fastpredict_X kf dt) = rate_row kf
  /\ (forall (st st' : fusion_state),
        fusion_predict dt st = Some st' ->
        exists kfa kfo,
          axis_row kfa = axis_row (kf_attitude st)
          /\ rate_row kfa = rate_row (kf_attitude st)
          /\ axis_row kfo = axis_row (kf_orientation st)
          /\ rate_row kfo = rate_row (kf_orientation st)
          /\ kf_attitude st'
             = fusion_sanitize_state
                 (kalman_predict_P_uc (fusion_fastpredict_X kfa dt))
          /\ kf_orientation st'
             = fusion_sanitize_state
                 (kalman_predict_P_uc (fusion_fastpredict_X kfo dt))).
Proof.
  intros. split; [|split].
  - unfold axis_row, fusion_fastpredict_X, kalman_get_state_vector_uc.
    cbn [kf_x with_x].
    read_cells. reflexivity.
  - unfold rate_row, fusion_fastpredict_X, kalman_get_state_vector_uc.
    cbn [kf_x with_x].
    read_cells. reflexivity.
  - intros st st' (kfa & kfo & Ea & Eo & ->)%fusion_predict_Some.
    apply update_state_matrix_from_state_Some in Ea as (Exa & _ & _).
    apply update_state_matrix_from_state_Some in Eo as (Exo & _ & _).
    exists kfa, kfo. unfold axis_row, rate_row. rewrite Exa, Exo.
    repeat split; reflexivity.
Qed.

End UpdateFacts.

Section FlagFacts.

Context {K : MathKernel}.

(** Apart from [fusion_update], no call clears a "have" flag. *)
Lemma step_keeps_have_flags c st st' :
  (forall dt, c <> call_update dt) ->
  step c st = Some st' ->
  (m_have_accelerometer st = true -> m_have_accelerometer st' = true)
  /\ (m_have_gyroscope st = true -> m_have_gyroscope st' = true)
  /\ (m_have_magnetometer st = true -> m_have_magnetometer st' = true).
Proof.
  intros Hcall Hrun.
  destruct c; simpl in Hrun;
    try (injection Hrun as <-; simpl; auto; fail).
  - apply fusion_initialize_flags in Hrun as (Hl & _).
    unfold latches in Hl. injection Hl as _ _ _ -> -> ->. auto.
  - apply fusion_predict_flags in Hrun as (Hl & _).
    unfold latches in Hl. injection Hl as _ _ _ -> -> ->. auto.
  - by destruct (Hcall deltaT).
Qed.

(** Claim C8 (invariant I3).  An update that returns leaves
    [m_have_accelerometer] and [m_have_magnetometer] false, and it returns
    whenever the observation instances have their dimensions.  Each setter
    writes its sample buffer and sets its own flag to true, nothing else;
    the prediction keeps the buffers and the three flags; the two getters
    keep all the globals; and no call other than the update turns a "have"
    flag from true to false. *)
Theorem C8_have_flags :
  (forall dt st st',
     fusion_update dt st = Some st' ->
     m_have_accelerometer st' = false /\ m_have_magnetometer st' = false)
  /\ (forall dt st,
        update_ready st = true -> exists st', fusion_update dt st = Some st')
  /\ (forall ax ay az st,
        fusion_set_accelerometer ax ay az st
        = with_accelerometer (mk_v3d ax ay az) true st)
  /\ (forall gx gy gz st,
        fusion_set_gyroscope gx gy gz st
        = with_gyroscope (mk_v3d gx gy gz) true st)
  /\ (forall mx my mz st,
        fusion_set_magnetometer mx my mz st
        = with_magnetometer (mk_v3d mx my mz) true st)
  /\ (forall dt st st',
        fusion_predict dt st = Some st' -> latches st' = latches st)
  /\ (forall st, step call_fetch_angles st = Some st)
  /\ (forall st, step call_fetch_quaternion st = Some st)
  /\ (forall c st st',
        (forall dt, c <> call_update dt) ->
        step c st = Some st' ->
        (m_have_accelerometer st = true -> m_have_accelerometer st' = true)
        /\ (m_have_gyroscope st = true -> m_have_gyroscope st' = true)
        /\ (m_have_magnetometer st = true -> m_have_magnetometer st' = true)).
Proof.
  split; [|split; [|split; [|split; [|split; [|split; [|split; [|split]]]]]]].
  - intros dt st st' Hrun. apply fusion_update_Some in Hrun as ->.
    by destruct (after_update_flags st) as (-> & -> & _).
  - intros dt st Hready. rewrite fusion_update_ok by assumption. eauto.
  - reflexivity.
  - reflexivity.
  - reflexivity.
  - intros dt st st' Hrun. by apply fusion_predict_flags in Hrun as (-> & _).
  - reflexivity.
  - reflexivity.
  - apply step_keeps_have_flags.
Qed.

End FlagFacts.

Section CorrectionFacts.

Context {K : MathKernel}.

(** *** What the observation instances hold when they are handed over *)

Lemma gyro_observation_cells st :
  kfm_H (gyro_observation st) = kfm_H (kfm_gyro st)
  /\ kfm_R (gyro_observation st) = kfm_R (kfm_gyro st)
  /\ mf16_get (kfm_z (gyro_observation st)) 0 0 = v3d_x (m_gyroscope st)
  /\ mf16_get (kfm_z (gyro_observation st)) 1 0 = v3d_y (m_gyroscope st)
  /\ mf16_get (kfm_z (gyro_observation st)) 2 0 = v3d_z (m_gyroscope st).
Proof.
  unfold gyro_observation. cbn [kfm_H kfm_R kfm_z with_z].
  repeat split; by read_cells.
Qed.

Lemma axis_gyro_z_cells z v g :
  mf16_get (axis_gyro_z z v g) 0 0 = v3d_x v
  /\ mf16_get (axis_gyro_z z v g) 1 0 = v3d_y v
  /\ mf16_get (axis_gyro_z z v g) 2 0 = v3d_z v
  /\ mf16_get (axis_gyro_z z v g) 3 0 = v3d_x g
  /\ mf16_get (axis_gyro_z z v g) 4 0 = v3d_y g
  /\ mf16_get (axis_gyro_z z v g) 5 0 = v3d_z g.
Proof. unfold axis_gyro_z. repeat split; by read_cells. Qed.

Lemma tuned_R_diagonal R axis (i : nat) :
  (i < 6)%nat ->
  mf16_get (tuned_R R axis) i i
  = if (i <? 3)%nat then axis else fix16_mul initial_r_gyro alpha2.
Proof.
  intros Hi. unfold tuned_R.
  do 6 (destruct i as [|i]; [by read_cells|]). lia.
Qed.

Lemma accel_observation_cells st :
  kfm_H (accel_observation st) = kfm_H (kfm_accel st)
  /\ mf16_get (kfm_z (accel_observation st)) 0 0
     = fix16_div (v3d_x (m_accelerometer st)) (v3d_norm (m_accelerometer st))
  /\ mf16_get (kfm_z (accel_observation st)) 1 0
     = fix16_div (v3d_y (m_accelerometer st)) (v3d_norm (m_accelerometer st))
  /\ mf16_get (kfm_z (accel_observation st)) 2 0
     = fix16_div (v3d_z (m_accelerometer st)) (v3d_norm (m_accelerometer st))
  /\ mf16_get (kfm_z (accel_observation st)) 3 0 = v3d_x (m_gyroscope st)
  /\ mf16_get (kfm_z (accel_observation st)) 4 0 = v3d_y (m_gyroscope st)
  /\ mf16_get (kfm_z (accel_observation st)) 5 0 = v3d_z (m_gyroscope st).
Proof.
  unfold accel_observation. cbn [kfm_H kfm_R kfm_z with_z with_R].
  split; [reflexivity|]. apply axis_gyro_z_cells.
Qed.

Lemma accel_observation_noise st (i : nat) :
  (i < 6)%nat ->
  mf16_get (kfm_R (accel_observation st)) i i
  = if (i <? 3)%nat then fix16_mul initial_r_axis alpha1
    else fix16_mul initial_r_gyro alpha2.
Proof. intros Hi. by apply tuned_R_diagonal. Qed.

Lemma magneto_observation_noise st (i : nat) :
  (i < 6)%nat ->
  mf16_get (kfm_R (magneto_observation st)) i i
  = if (i <? 3)%nat then fix16_mul initial_r_projection alpha1
    else fix16_mul initial_r_gyro alpha2.
Proof.
  intros Hi. unfold magneto_observation, tuned_R.
  cbn [kfm_H kfm_R kfm_z with_z with_R].
  do 6 (destruct i as [|i]; [by read_cells|]). lia.
Qed.

Lemma magneto_observation_cells st :
  kfm_H (magneto_observation st) = kfm_H (kfm_magneto st)
  /\ mf16_get (kfm_z (magneto_observation st)) 0 0
     = v3d_x (projected_magnetometer st)
  /\ mf16_get (kfm_z (magneto_observation st)) 1 0
     = v3d_y (projected_magnetometer st)
  /\ mf16_get (kfm_z (magneto_observation st)) 2 0
     = v3d_z (projected_magnetometer st)
  /\ mf16_get (kfm_z (magneto_observation st)) 3 0 = v3d_x (m_gyroscope st)
  /\ mf16_get (kfm_z (magneto_observation st)) 4 0 = v3d_y (m_gyroscope st)
  /\ mf16_get (kfm_z (magneto_observation st)) 5 0 = v3d_z (m_gyroscope st).
Proof.
  unfold magneto_observation. cbn [kfm_H kfm_R kfm_z with_z with_R].
  split; [reflexivity|]. apply axis_gyro_z_cells.
Qed.

(** The re-orthogonalisation divides the axis row by [norm3] of it, with no
    guard on the norm. *)
Lemma fusion_sanitize_state_axis_row kf :
  let c := axis_row kf in
  let n := norm3 (v3d_x c) (v3d_y c) (v3d_z c) in
  axis_row (fusion_sanitize_state kf)
  = mk_v3d (fix16_div (v3d_x c) n) (fix16_div (v3d_y c) n)
      (fix16_div (v3d_z c) n)
  /\ rate_row (fusion_sanitize_state kf) = rate_row kf.
Proof.
  unfold axis_row, rate_row, fusion_sanitize_state. cbn [kf_x with_x].
  split; by read_cells.
Qed.

Lemma bootstrap_attitude_filter st :
  axis_row (kf_attitude (bootstrap_attitude st)) = normalised_accelerometer st
  /\ rate_row (kf_attitude (bootstrap_attitude st)) = rate_row (kf_attitude st)
  /\ kf_A (kf_attitude (bootstrap_attitude st)) = kf_A (kf_attitude st)
  /\ kf_P (kf_attitude (bootstrap_attitude st)) = kf_P (kf_attitude st)
  /\ kf_Q (kf_attitude (bootstrap_attitude st)) = kf_Q (kf_attitude st).
Proof.
  unfold bootstrap_attitude, axis_row, rate_row, normalised_accelerometer.
  cbn [kf_attitude with_kf_attitude with_attitude_bootstrapped kf_x kf_A kf_P
       kf_Q with_x].
  repeat split; by read_cells.
Qed.

(** The attitude half leaves the orientation filter and the magnetometer
    observation alone; the orientation half leaves the attitude filter and
    the accelerometer observation alone. *)
Lemma attitude_branch_frame st :
  kf_orientation (attitude_branch st) = kf_orientation st
  /\ kfm_magneto (attitude_branch st) = kfm_magneto st.
Proof.
  unfold attitude_branch, attitude_entry.
  destruct (m_have_accelerometer st), (m_attitude_bootstrapped st);
    cbn [andb negb]; try destruct (disturbed _); auto.
Qed.

Lemma orientation_branch_frame st :
  kf_attitude (orientation_branch st) = kf_attitude st
  /\ kfm_accel (orientation_branch st) = kfm_accel st.
Proof.
  unfold orientation_branch, orientation_entry, bootstrap_orientation.
  destruct (magnetometer_project st) as [[mx my] mz].
  destruct (m_have_magnetometer st), (m_orientation_bootstrapped st),
    (m_attitude_bootstrapped st); cbn [andb negb]; auto.
Qed.

Lemma disturbed_attitude_entry st :
  disturbed (attitude_entry st) = disturbed st.
Proof.
  unfold attitude_entry.
  by destruct (m_have_accelerometer st && negb (m_attitude_bootstrapped st)).
Qed.

Lemma attitude_entry_latches st :
  m_accelerometer (attitude_entry st) = m_accelerometer st
  /\ m_gyroscope (attitude_entry st) = m_gyroscope st
  /\ kfm_gyro (attitude_entry st) = kfm_gyro st
  /\ kfm_accel (attitude_entry st) = kfm_accel st.
Proof.
  unfold attitude_entry.
  by destruct (m_have_accelerometer st && negb (m_attitude_bootstrapped st)).
Qed.

(** The attitude filter and the accelerometer observation after the update,
    when an accelerometer sample is latched. *)
Lemma after_update_attitude st :
  m_have_accelerometer st = true ->
  kf_attitude (after_update st)
  = fusion_sanitize_state
      (kalman_correct_uc (kf_attitude (attitude_entry st))
         (if disturbed st then gyro_observation (attitude_entry st)
          else accel_observation (attitude_entry st)))
  /\ kfm_accel (after_update st)
     = if disturbed st then kfm_accel st
       else accel_observation (attitude_entry st).
Proof.
  intros Hacc. unfold after_update.
  cbn [kf_attitude kfm_accel with_have_magnetometer with_have_accelerometer
       with_magnetometer with_accelerometer].
  destruct (orientation_branch_frame (attitude_branch st)) as [-> ->].
  unfold attitude_branch. rewrite Hacc, disturbed_attitude_entry.
  destruct (attitude_entry_latches st) as (_ & _ & _ & Hk).
  destruct (disturbed st); cbn [andb negb]; simpl; auto.
Qed.

(** Claim C2.  Take an update with an accelerometer sample latched.  It
    returns when the observation instances have their dimensions, and
    whenever it returns it has corrected the attitude filter (as it stands
    after the bootstrap write, when there is one) exactly once, with one
    observation [obs].  When [| norm3(a) - 1 | >= attitude_threshold],
    [obs] is [kfm_gyro] with the latched gyroscope in its measurement, and
    [kfm_accel] is left as it was: no accelerometer observation is prepared
    or applied.  Otherwise [obs] is [kfm_accel], whose measurement holds the
    accelerometer divided by its norm in rows 0..2 and the latched gyroscope
    in rows 3..5. *)
Theorem C2_attitude_correction_choice (dt : fix16_t) (st : fusion_state) :
  m_have_accelerometer st = true ->
  let a := m_accelerometer st in
  let g := m_gyroscope st in
  let alpha :=
    fix16_abs (fix16_sub (norm3 (v3d_x a) (v3d_y a) (v3d_z a)) (F16 1 1)) in
  (update_ready st = true -> exists st', fusion_update dt st = Some st')
  /\ forall st',
       fusion_update dt st = Some st' ->
       exists obs,
         kf_attitude st'
         = fusion_sanitize_state
             (kalman_correct_uc (kf_attitude (attitude_entry st)) obs)
         /\ if attitude_threshold <=? alpha then
              kfm_H obs = kfm_H (kfm_gyro st)
              /\ kfm_R obs = kfm_R (kfm_gyro st)
              /\ mf16_get (kfm_z obs) 0 0 = v3d_x g
              /\ mf16_get (kfm_z obs) 1 0 = v3d_y g
              /\ mf16_get (kfm_z obs) 2 0 = v3d_z g
              /\ kfm_accel st' = kfm_accel st
            else
              kfm_accel st' = obs
              /\ kfm_H obs = kfm_H (kfm_accel st)
              /\ mf16_get (kfm_z obs) 0 0 = fix16_div (v3d_x a) (v3d_norm a)
              /\ mf16_get (kfm_z obs) 1 0 = fix16_div (v3d_y a) (v3d_norm a)
              /\ mf16_get (kfm_z obs) 2 0 = fix16_div (v3d_z a) (v3d_norm a)
              /\ mf16_get (kfm_z obs) 3 0 = v3d_x g
              /\ mf16_get (kfm_z obs) 4 0 = v3d_y g
              /\ mf16_get (kfm_z obs) 5 0 = v3d_z g.
Proof.
  intros Hacc a g alpha. split.
  { intros Hready. rewrite fusion_update_ok by assumption. eauto. }
  intros st' Hrun. apply fusion_update_Some in Hrun as ->.
  destruct (after_update_attitude st Hacc) as [Hkf Hobs].
  destruct (attitude_entry_latches st) as (Ha & Hg & Hkg & Hka).
  exists (if disturbed st then gyro_observation (attitude_entry st)
          else accel_observation (attitude_entry st)).
  split; [exact Hkf|].
  change (attitude_threshold <=? alpha) with (disturbed st).
  rewrite Hobs.
  destruct (disturbed st).
  - destruct (gyro_observation_cells (attitude_entry st)) as (? & ? & ? & ? & ?).
    subst g. rewrite <- Hg, <- Hkg. auto 10.
  - destruct (accel_observation_cells (attitude_entry st))
      as (? & ? & ? & ? & ? & ? & ?).
    subst a g. rewrite <- Ha, <- Hg, <- Hka. auto 10.
Qed.

Lemma first_accelerometer_update (dt : fix16_t) (st : fusion_state) :
  m_have_accelerometer st = true ->
  m_attitude_bootstrapped st = false ->
  (update_ready st = true -> exists st', fusion_update dt st = Some st')
  /\ forall st',
       fusion_update dt st = Some st' ->
       m_attitude_bootstrapped st' = true
       /\ axis_row (kf_attitude (bootstrap_attitude st))
          = normalised_accelerometer st
       /\ rate_row (kf_attitude (bootstrap_attitude st))
          = rate_row (kf_attitude st)
       /\ kf_attitude st'
          = fusion_sanitize_state
              (kalman_correct_uc (kf_attitude (bootstrap_attitude st))
                 (if disturbed st then gyro_observation st
                  else accel_observation st)).
Proof.
  intros Hacc Hboot. split.
  { intros Hready. rewrite fusion_update_ok by assumption. eauto. }
  intros st' Hrun. apply fusion_update_Some in Hrun as ->.
  destruct (after_update_flags st) as (_ & _ & _ & -> & _).
  rewrite Hacc, Hboot. split; [reflexivity|].
  destruct (bootstrap_attitude_filter st) as (Hax & Hrate & _).
  split; [exact Hax|]. split; [exact Hrate|].
  destruct (after_update_attitude st Hacc) as [-> _].
  unfold attitude_entry. rewrite Hacc, Hboot. cbn [andb negb].
  by destruct (disturbed st).
Qed.

Lemma after_update_orientation st :
  m_have_magnetometer st = true ->
  kf_orientation (after_update st)
  = fusion_sanitize_state
      (kalman_correct_uc
         (kf_orientation (orientation_entry (attitude_branch st)))
         (magneto_observation (orientation_entry (attitude_branch st))))
  /\ kfm_magneto (after_update st)
     = magneto_observation (orientation_entry (attitude_branch st)).
Proof.
  intros Hmag. unfold after_update.
  cbn [kf_orientation kfm_magneto with_have_magnetometer
       with_have_accelerometer with_magnetometer with_accelerometer].
  unfold orientation_branch.
  destruct (attitude_branch_flags st) as (Hl & _).
  unfold latches in Hl. injection Hl as _ _ _ _ _ ->.
  rewrite Hmag. auto.
Qed.

(** Claim C1, as the code has it.  Take an update with a magnetometer
    sample latched, no accelerometer sample and the attitude filter not
    bootstrapped.  It returns when the observation instances have their
    dimensions, and whenever it returns both bootstrap flags are as they
    were; but the orientation filter does not get the gyro-only correction:
    it is corrected against [kfm_magneto], whose measurement holds, in rows
    0..2, the magnetometer projected through the attitude row that was
    never bootstrapped (as the gyro-only attitude correction left it) and,
    in rows 3..5, the latched gyroscope, with the projection noise on the
    axis block of [R]. *)
Theorem C1_magnetometer_correction_before_attitude
  (dt : fix16_t) (st : fusion_state) :
  m_have_magnetometer st = true ->
  m_have_accelerometer st = false ->
  m_attitude_bootstrapped st = false ->
  (update_ready st = true -> exists st', fusion_update dt st = Some st')
  /\ forall st',
       fusion_update dt st = Some st' ->
       let p := projected_magnetometer (after_attitude_gyro st) in
       m_orientation_bootstrapped st' = m_orientation_bootstrapped st
       /\ m_attitude_bootstrapped st' = false
       /\ kf_orientation st'
          = fusion_sanitize_state
              (kalman_correct_uc (kf_orientation st) (kfm_magneto st'))
       /\ kfm_H (kfm_magneto st') = kfm_H (kfm_magneto st)
       /\ mf16_get (kfm_z (kfm_magneto st')) 0 0 = v3d_x p
       /\ mf16_get (kfm_z (kfm_magneto st')) 1 0 = v3d_y p
       /\ mf16_get (kfm_z (kfm_magneto st')) 2 0 = v3d_z p
       /\ mf16_get (kfm_z (kfm_magneto st')) 3 0 = v3d_x (m_gyroscope st)
       /\ mf16_get (kfm_z (kfm_magneto st')) 4 0 = v3d_y (m_gyroscope st)
       /\ mf16_get (kfm_z (kfm_magneto st')) 5 0 = v3d_z (m_gyroscope st)
       /\ mf16_get (kfm_R (kfm_magneto st')) 0 0
          = fix16_mul initial_r_projection alpha1.
Proof.
  intros Hmag Hacc Hboot. split.
  { intros Hready. rewrite fusion_update_ok by assumption. eauto. }
  intros st' Hrun p. apply fusion_update_Some in Hrun as ->.
  assert (Hbranch : attitude_branch st = after_attitude_gyro st).
  { unfold attitude_branch, attitude_entry. by rewrite Hacc. }
  assert (Hentry : orientation_entry (after_attitude_gyro st)
                   = after_attitude_gyro st).
  { unfold orientation_entry.
    cbn [m_attitude_bootstrapped after_attitude_gyro with_kf_attitude
         with_kfm_gyro].
    rewrite Hboot. by rewrite andb_false_r. }
  destruct (after_update_flags st) as (_ & _ & _ & -> & ->).
  rewrite Hacc, Hboot. cbn [orb]. rewrite andb_false_r, orb_false_r.
  split; [reflexivity|]. split; [reflexivity|].
  destruct (after_update_orientation st Hmag) as [-> ->].
  rewrite Hbranch, Hentry.
  split; [reflexivity|].
  destruct (magneto_observation_cells (after_attitude_gyro st))
    as (HH & Hz0 & Hz1 & Hz2 & Hz3 & Hz4 & Hz5).
  split; [exact HH|]. split; [exact Hz0|]. split; [exact Hz1|].
  split; [exact Hz2|]. split; [exact Hz3|]. split; [exact Hz4|].
  split; [exact Hz5|].
  by rewrite (magneto_observation_noise _ 0%nat) by lia.
Qed.

(** *** The measurement noise written by the initialisation *)

Lemma update_measurement_noise_Some kfm axis gyro kfm' (i : nat) :
  update_measurement_noise kfm axis gyro = Some kfm' ->
  (i < 6)%nat ->
  mf16_get (kfm_R kfm') i i = if (i <? 3)%nat then axis else gyro.
Proof.
  unfold update_measurement_noise. intros Hrun Hi.
  repeat peel_set. injection Hrun as <-. cbn [kfm_R with_R].
  do 6 (destruct i as [|i]; [by read_cells|]). lia.
Qed.

Lemma initialize_observation_noise kfm n m kfm' (i : nat) :
  initialize_observation kfm n m = Some kfm' ->
  (i < 6)%nat ->
  mf16_get (kfm_R kfm') i i
  = if (i <? 3)%nat then initial_r_axis else initial_r_gyro.
Proof.
  unfold initialize_observation. intros Hrun Hi.
  repeat peel_set.
  by apply update_measurement_noise_Some with (i := i) in Hrun.
Qed.

Lemma fusion_initialize_noise st0 st (i : nat) :
  fusion_initialize st0 = Some st ->
  (i < 6)%nat ->
  mf16_get (kfm_R (kfm_accel st)) i i
  = (if (i <? 3)%nat then initial_r_axis else initial_r_gyro)
  /\ mf16_get (kfm_R (kfm_magneto st)) i i
     = (if (i <? 3)%nat then initial_r_axis else initial_r_gyro).
Proof.
  unfold fusion_initialize. intros Hrun Hi.
  destruct (initialize_system st0) as [s1|]; [|discriminate].
  destruct (initialize_observation_gyro s1) as [s2|]; [|discriminate].
  destruct (initialize_observation_accel s2) as [s3|] eqn:E3; [|discriminate].
  unfold initialize_observation_accel in E3.
  destruct (initialize_observation (kfm_accel s2) _ _) as [ka|] eqn:Ea;
    [|discriminate].
  injection E3 as <-.
  unfold initialize_observation_magneto in Hrun.
  cbn [kfm_magneto with_kfm_accel] in Hrun.
  destruct (initialize_observation (kfm_magneto s2) _ _) as [km|] eqn:Em;
    [|discriminate].
  injection Hrun as <-. cbn [kfm_accel kfm_magneto with_kfm_magneto with_kfm_accel].
  split; eapply initialize_observation_noise; eauto.
Qed.

(** The seeds of the axis rows are the integers of the source. *)
Lemma fusion_initialize_axis_rows st0 st :
  fusion_initialize st0 = Some st ->
  axis_row (kf_attitude st) = mk_v3d 0 0 1
  /\ axis_row (kf_orientation st) = mk_v3d 0 1 0.
Proof.
  unfold fusion_initialize. intros Hrun.
  destruct (initialize_system st0) as [s1|] eqn:E1; [|discriminate].
  destruct (initialize_observation_gyro s1) as [s2|] eqn:E2; [|discriminate].
  destruct (initialize_observation_accel s2) as [s3|] eqn:E3; [|discriminate].
  assert (kf_attitude st = kf_attitude s1 /\ kf_orientation st = kf_orientation s1)
    as [-> ->].
  { unfold initialize_observation_magneto in Hrun.
    destruct (initialize_observation _ _ _); [|discriminate].
    injection Hrun as <-.
    unfold initialize_observation_accel in E3.
    destruct (initialize_observation _ _ _); [|discriminate].
    injection E3 as <-.
    unfold initialize_observation_gyro in E2.
    repeat peel_set. by injection E2 as <-. }
  unfold initialize_system in E1.
  destruct (initialize_system_filter (kf_orientation st0) _); [|discriminate].
  cbn [kf_attitude with_kf_orientation] in E1.
  destruct (initialize_system_filter (kf_attitude st0) _); [|discriminate].
  injection E1 as <-. unfold axis_row.
  cbn [kf_attitude kf_orientation with_kf_attitude with_kf_orientation kf_x with_x].
  split; by read_cells.
Qed.

(** *** The quaternion *)

Lemma fetch_quaternion_opt2_raw_dcm st :
  fetch_quaternion_opt2_raw st
  = dcm_to_quaternion
      (top_row_of_source (axis_row (kf_attitude st))
         (axis_row (kf_orientation st)))
      (axis_row (kf_orientation st)) (neg3 (axis_row (kf_attitude st))).
Proof. reflexivity. Qed.

(** Claim C6, amended.  [fusion_fetch_quaternion] is the normalised
    trace-based conversion of the DCM whose middle row is the orientation
    row [b], whose bottom row is [-a] for the attitude row [a], and whose
    top row is [normalise(b x (-a))], the cross product of the middle row
    with the bottom row; when the trace is positive the quaternion before
    normalisation is [w = 0.25 / s], [x = (m21 - m12) s],
    [y = (m02 - m20) s], [z = (m10 - m01) s] with
    [s = 0.5 / sqrt(1 + tr)]. *)
Theorem C6_quaternion_of_source_dcm (st : fusion_state) :
  let a := axis_row (kf_attitude st) in
  let b := axis_row (kf_orientation st) in
  let top := top_row_of_source a b in
  fusion_fetch_quaternion st = quaternion_with_top_row top a b
  /\ fetch_quaternion_opt2_raw st = dcm_to_quaternion top b (neg3 a)
  /\ (0 < dcm_trace top b (neg3 a) ->
      fetch_quaternion_opt2_raw st = quaternion_of_positive_trace top b (neg3 a)).
Proof.
  intros a b top. split; [reflexivity|]. split; [reflexivity|].
  intros Htr. rewrite fetch_quaternion_opt2_raw_dcm.
  fold a b top. unfold dcm_to_quaternion.
  by apply Z.ltb_lt in Htr as ->.
Qed.

(** Claim C5, amended.  After [fusion_initialize] and before any
    correction, the [R] diagonal of [kfm_accel] and of [kfm_magneto] holds
    the unscaled [r_axis = F16(0.05)] on entries 0..2 and
    [r_gyro = F16(0.02)] on entries 3..5.  The scaled values are written
    by the tuning that runs right before a correction: an undisturbed
    accelerometer correction leaves [r_axis * alpha1] and [r_gyro * alpha2]
    in [kfm_accel], and a magnetometer correction leaves
    [r_projection * alpha1] and [r_gyro * alpha2] in [kfm_magneto]. *)
Theorem C5_measurement_noise_by_design (st0 st : fusion_state) (i : nat) :
  fusion_initialize st0 = Some st ->
  (i < 6)%nat ->
  mf16_get (kfm_R (kfm_accel st)) i i
  = (if (i <? 3)%nat then F16 5 100 else F16 2 100)
  /\ mf16_get (kfm_R (kfm_magneto st)) i i
     = (if (i <? 3)%nat then F16 5 100 else F16 2 100)
  /\ (forall dt s s',
        disturbed s = false ->
        fusion_update_attitude dt s = Some s' ->
        mf16_get (kfm_R (kfm_accel s')) i i
        = if (i <? 3)%nat then fix16_mul initial_r_axis alpha1
          else fix16_mul initial_r_gyro alpha2)
  /\ (forall dt s s',
        fusion_update_orientation dt s = Some s' ->
        mf16_get (kfm_R (kfm_magneto s')) i i
        = if (i <? 3)%nat then fix16_mul initial_r_projection alpha1
          else fix16_mul initial_r_gyro alpha2).
Proof.
  intros Hinit Hi.
  destruct (fusion_initialize_noise st0 st i Hinit Hi) as [Ha Hm].
  split; [exact Ha|]. split; [exact Hm|]. split.
  - intros dt s s' Hcalm Hrun.
    apply fusion_update_attitude_Some in Hrun. rewrite Hcalm in Hrun.
    subst s'. by apply accel_observation_noise.
  - intros dt s s' Hrun.
    apply fusion_update_orientation_Some in Hrun. subst s'.
    by apply magneto_observation_noise.
Qed.

End CorrectionFacts.

(** ** The driver on the reference kernel *)

Section ReferenceFacts.

Local Existing Instance Reference.kernel.

(** A computation that returns, returns its default-extracted value. *)
Lemma Some_default {A : Type} (o : option A) (d : A) :
  match o with Some _ => true | None => false end = true ->
  o = Some (default d o).
Proof. by destruct o. Qed.

(** Evaluate a closed goal on the reference kernel. *)
Ltac run_it := first [apply Some_default | idtac]; vm_compute; reflexivity.

Lemma initialised_run : fusion_initialize power_on = Some initialised.
Proof. apply Some_default. vm_compute. reflexivity. Qed.

Lemma level_run : run level_calls initialised = Some level.
Proof. apply Some_default. vm_compute. reflexivity. Qed.

Lemma inverted_run : run inverted_calls initialised = Some inverted.
Proof. apply Some_default. vm_compute. reflexivity. Qed.

Lemma predicted_run : fusion_predict (F16 1 100) initialised = Some predicted.
Proof. apply Some_default. vm_compute. reflexivity. Qed.

Lemma magnetometer_only_run :
  fusion_update (F16 1 100) magnetometer_only = Some magnetometer_only_updated.
Proof. apply Some_default. vm_compute. reflexivity. Qed.

(** On scenario 5 the orientation filter after the update is not the one a
    gyro-only correction gives, and the magnetometer observation was
    rewritten. *)
Lemma magnetometer_only_not_gyro_only :
  kf_orientation magnetometer_only_updated
  <> kf_orientation
       (after_orientation_gyro (after_attitude_gyro magnetometer_only))
  /\ kfm_magneto magnetometer_only_updated <> kfm_magneto magnetometer_only.
Proof.
  split; intros Heq.
  - apply (f_equal (fun kf => mf16_get (kf_x kf) 1 0)) in Heq.
    vm_compute in Heq. discriminate Heq.
  - apply (f_equal (fun kfm => mf16_get (kfm_z kfm) 1 0)) in Heq.
    vm_compute in Heq. discriminate Heq.
Qed.

(** Claim C3, at the first prediction.  [fusion_initialize] seeds the axis
    rows with the integers (0,0,1) and (0,1,0), that is 2^-16 and not 1.0.
    The first [fusion_predict], with [dt = 0.01] in (0, 1], then divides
    each row by its Q16.16 norm, which is 0: both axis rows come out as
    three times the most negative number, and neither satisfies
    [| sqrt(c1^2 + c2^2 + c3^2) - 1 | < 2^-10]. *)
Theorem C3_axis_rows_after_first_predict :
  fusion_initialize power_on = Some initialised
  /\ axis_row (kf_attitude initialised) = mk_v3d 0 0 1
  /\ axis_row (kf_orientation initialised) = mk_v3d 0 1 0
  /\ 0 < F16 1 100 <= F16 1 1
  /\ fusion_predict (F16 1 100) initialised = Some predicted
  /\ axis_row (kf_attitude predicted)
     = mk_v3d (- 2 ^ 31) (- 2 ^ 31) (- 2 ^ 31)
  /\ axis_row (kf_orientation predicted)
     = mk_v3d (- 2 ^ 31) (- 2 ^ 31) (- 2 ^ 31)
  /\ axis_normalised (kf_attitude predicted) = false
  /\ axis_normalised (kf_orientation predicted) = false
  /\ axis_normalised_fix16 (kf_attitude predicted) = false
  /\ axis_normalised_fix16 (kf_orientation predicted) = false.
Proof.
  split; [exact initialised_run|].
  split; [vm_compute; reflexivity|].
  split; [vm_compute; reflexivity|].
  split; [vm_compute; split; [reflexivity | discriminate]|].
  split; [exact predicted_run|].
  repeat split; vm_compute; reflexivity.
Qed.

(** Claim C10.  Take an update with an accelerometer sample latched and
    the attitude filter not yet bootstrapped.  It returns when the
    observation instances have their dimensions, and whenever it returns
    the attitude axis row was overwritten with the accelerometer divided by
    its norm and the bootstrap flag is set, whatever the disturbance check
    says; the check only selects the observation of the correction that
    follows, which runs on the bootstrapped filter.  On the reference
    kernel the first sample (2,0,0) is disturbed and writes (1,0,0) into
    the axis row. *)
Theorem C10_bootstrap_ignores_disturbance :
  (forall (K : MathKernel) (dt : fix16_t) (st : fusion_state),
     m_have_accelerometer st = true ->
     m_attitude_bootstrapped st = false ->
     (update_ready st = true -> exists st', @fusion_update K dt st = Some st')
     /\ forall st',
          @fusion_update K dt st = Some st' ->
          m_attitude_bootstrapped st' = true
          /\ axis_row (kf_attitude (@bootstrap_attitude K st))
             = @normalised_accelerometer K st
          /\ rate_row (kf_attitude (@bootstrap_attitude K st))
             = rate_row (kf_attitude st)
          /\ kf_attitude st'
             = @fusion_sanitize_state K
                 (@kalman_correct_uc K
                    (kf_attitude (@bootstrap_attitude K st))
                    (if @disturbed K st then gyro_observation st
                     else @accel_observation K st)))
  /\ (m_accelerometer first_sample_disturbed = mk_v3d (F16 2 1) 0 0
      /\ m_have_accelerometer first_sample_disturbed = true
      /\ m_attitude_bootstrapped first_sample_disturbed = false
      /\ disturbed first_sample_disturbed = true
      /\ fusion_update (F16 1 100) first_sample_disturbed
         = Some first_sample_updated
      /\ m_attitude_bootstrapped first_sample_updated = true
      /\ axis_row (kf_attitude (bootstrap_attitude first_sample_disturbed))
         = mk_v3d (F16 1 1) 0 0).
Proof.
  split.
  - intros K dt st. apply first_accelerometer_update.
  - split; [run_it|]. split; [run_it|]. split; [run_it|]. split; [run_it|].
    split; [run_it|]. split; run_it.
Qed.

(** Claim C5 as stated fails on the initialised globals: the first [R]
    entry of [kfm_accel] is 3277, which is neither [F16(0.25)] nor the
    product [r_axis * alpha1]. *)
Lemma C5_counterexample :
  fusion_initialize power_on = Some initialised
  /\ mf16_get (kfm_R (kfm_accel initialised)) 0 0 = 3277
  /\ ~ noise_diagonal initialised (F16 25 100) (F16 16 1000) (F16 10 100)
  /\ ~ noise_diagonal initialised (fix16_mul initial_r_axis alpha1)
         (fix16_mul initial_r_gyro alpha2)
         (fix16_mul initial_r_projection alpha1).
Proof.
  split; [exact initialised_run|].
  split; [vm_compute; reflexivity|].
  split; intros Hclaim; destruct (Hclaim 0%nat) as (Haxis & _);
    specialize (Haxis ltac:(lia)); vm_compute in Haxis; discriminate Haxis.
Qed.

(** Claim C6 as stated fails on scenario 1: with the top row
    [normalise((-a) x b)] the conversion gives (0,0,0,1), while
    [fusion_fetch_quaternion] returns (0,1,0,0). *)
Lemma C6_counterexample :
  fusion_initialize power_on = Some initialised
  /\ run level_calls initialised = Some level
  /\ axis_row (kf_attitude level) = mk_v3d 0 0 65536
  /\ axis_row (kf_orientation level) = mk_v3d 0 (-65536) 0
  /\ fusion_fetch_quaternion level = mk_qf16 0 65536 0 0
  /\ quaternion_with_top_row
       (top_row_as_specified (axis_row (kf_attitude level))
          (axis_row (kf_orientation level)))
       (axis_row (kf_attitude level)) (axis_row (kf_orientation level))
     = mk_qf16 0 0 0 65536
  /\ fusion_fetch_quaternion level
     <> quaternion_with_top_row
          (top_row_as_specified (axis_row (kf_attitude level))
             (axis_row (kf_orientation level)))
          (axis_row (kf_attitude level)) (axis_row (kf_orientation level)).
Proof.
  split; [exact initialised_run|]. split; [exact level_run|].
  repeat split; try (vm_compute; reflexivity).
  intros Heq. vm_compute in Heq. discriminate Heq.
Qed.

(** *** The claims at concrete inputs *)

Lemma C1_witness :
  update_ready magnetometer_only = true
  /\ m_have_magnetometer magnetometer_only = true
  /\ m_have_accelerometer magnetometer_only = false
  /\ m_attitude_bootstrapped magnetometer_only = false
  /\ fusion_update (F16 1 100) magnetometer_only
     = Some magnetometer_only_updated
  /\ m_orientation_bootstrapped magnetometer_only_updated
     = m_orientation_bootstrapped magnetometer_only
  /\ m_attitude_bootstrapped magnetometer_only_updated = false
  /\ kf_orientation magnetometer_only_updated
     = fusion_sanitize_state
         (kalman_correct_uc (kf_orientation magnetometer_only)
            (kfm_magneto magnetometer_only_updated))
  /\ kfm_H (kfm_magneto magnetometer_only_updated)
     = kfm_H (kfm_magneto magnetometer_only)
  /\ mf16_get (kfm_z (kfm_magneto magnetometer_only_updated)) 0 0
     = v3d_x (projected_magnetometer (after_attitude_gyro magnetometer_only))
  /\ mf16_get (kfm_z (kfm_magneto magnetometer_only_updated)) 1 0
     = v3d_y (projected_magnetometer (after_attitude_gyro magnetometer_only))
  /\ mf16_get (kfm_z (kfm_magneto magnetometer_only_updated)) 2 0
     = v3d_z (projected_magnetometer (after_attitude_gyro magnetometer_only))
  /\ mf16_get (kfm_z (kfm_magneto magnetometer_only_updated)) 3 0
     = v3d_x (m_gyroscope magnetometer_only)
  /\ mf16_get (kfm_z (kfm_magneto magnetometer_only_updated)) 4 0
     = v3d_y (m_gyroscope magnetometer_only)
  /\ mf16_get (kfm_z (kfm_magneto magnetometer_only_updated)) 5 0
     = v3d_z (m_gyroscope magnetometer_only)
  /\ mf16_get (kfm_R (kfm_magneto magnetometer_only_updated)) 0 0
     = fix16_mul initial_r_projection alpha1.
Proof.
  split; [run_it|]. split; [run_it|]. split; [run_it|]. split; [run_it|]. split; [run_it|].
  apply (proj2 (@C1_magnetometer_correction_before_attitude Reference.kernel
                  (F16 1 100) magnetometer_only
                  ltac:(run_it) ltac:(run_it) ltac:(run_it))
           magnetometer_only_updated).
  run_it.
Defined.

Lemma C2_witness :
  update_ready level_latched = true
  /\ m_have_accelerometer level_latched = true
  /\ fusion_update (F16 1 100) level_latched = Some level_latched_updated
  /\ let a := m_accelerometer level_latched in
     let g := m_gyroscope level_latched in
     let alpha :=
       fix16_abs (fix16_sub (norm3 (v3d_x a) (v3d_y a) (v3d_z a)) (F16 1 1)) in
     exists obs,
       kf_attitude level_latched_updated
       = fusion_sanitize_state
           (kalman_correct_uc (kf_attitude (attitude_entry level_latched)) obs)
       /\ if attitude_threshold <=? alpha then
            kfm_H obs = kfm_H (kfm_gyro level_latched)
            /\ kfm_R obs = kfm_R (kfm_gyro level_latched)
            /\ mf16_get (kfm_z obs) 0 0 = v3d_x g
            /\ mf16_get (kfm_z obs) 1 0 = v3d_y g
            /\ mf16_get (kfm_z obs) 2 0 = v3d_z g
            /\ kfm_accel level_latched_updated = kfm_accel level_latched
          else
            kfm_accel level_latched_updated = obs
            /\ kfm_H obs = kfm_H (kfm_accel level_latched)
            /\ mf16_get (kfm_z obs) 0 0 = fix16_div (v3d_x a) (v3d_norm a)
            /\ mf16_get (kfm_z obs) 1 0 = fix16_div (v3d_y a) (v3d_norm a)
            /\ mf16_get (kfm_z obs) 2 0 = fix16_div (v3d_z a) (v3d_norm a)
            /\ mf16_get (kfm_z obs) 3 0 = v3d_x g
            /\ mf16_get (kfm_z obs) 4 0 = v3d_y g
            /\ mf16_get (kfm_z obs) 5 0 = v3d_z g.
Proof.
  split; [run_it|]. split; [run_it|]. split; [run_it|].
  apply (proj2 (@C2_attitude_correction_choice Reference.kernel (F16 1 100)
                  level_latched ltac:(run_it))
           level_latched_updated).
  run_it.
Defined.

Lemma C4_witness :
  fusion_predict (F16 1 100) initialised = Some predicted
  /\ exists kfa kfo,
       axis_row kfa = axis_row (kf_attitude initialised)
       /\ rate_row kfa = rate_row (kf_attitude initialised)
       /\ axis_row kfo = axis_row (kf_orientation initialised)
       /\ rate_row kfo = rate_row (kf_orientation initialised)
       /\ kf_attitude predicted
          = fusion_sanitize_state
              (kalman_predict_P_uc (fusion_fastpredict_X kfa (F16 1 100)))
       /\ kf_orientation predicted
          = fusion_sanitize_state
              (kalman_predict_P_uc (fusion_fastpredict_X kfo (F16 1 100))).
Proof.
  split; [run_it|].
  apply (proj2 (proj2 (@C4_fast_state_prediction Reference.kernel
                         (kf_attitude initialised) (F16 1 100)))
           initialised predicted).
  run_it.
Defined.

Lemma C5_witness :
  fusion_initialize power_on = Some initialised
  /\ (0 < 6)%nat
  /\ mf16_get (kfm_R (kfm_accel initialised)) 0 0 = F16 5 100
  /\ mf16_get (kfm_R (kfm_magneto initialised)) 0 0 = F16 5 100
  /\ (forall dt s s',
        disturbed s = false ->
        fusion_update_attitude dt s = Some s' ->
        mf16_get (kfm_R (kfm_accel s')) 0 0 = fix16_mul initial_r_axis alpha1)
  /\ (forall dt s s',
        fusion_update_orientation dt s = Some s' ->
        mf16_get (kfm_R (kfm_magneto s')) 0 0
        = fix16_mul initial_r_projection alpha1).
Proof.
  split; [run_it|]. split; [lia|].
  apply (@C5_measurement_noise_by_design Reference.kernel power_on initialised
           0%nat); [run_it | lia].
Defined.

Lemma C6_witness :
  0 < dcm_trace
        (top_row_of_source (axis_row (kf_attitude inverted))
           (axis_row (kf_orientation inverted)))
        (axis_row (kf_orientation inverted))
        (neg3 (axis_row (kf_attitude inverted)))
  /\ fetch_quaternion_opt2_raw inverted
     = quaternion_of_positive_trace
         (top_row_of_source (axis_row (kf_attitude inverted))
            (axis_row (kf_orientation inverted)))
         (axis_row (kf_orientation inverted))
         (neg3 (axis_row (kf_attitude inverted))).
Proof.
  split; [run_it|].
  apply (proj2 (proj2 (@C6_quaternion_of_source_dcm Reference.kernel inverted))).
  run_it.
Defined.

Lemma C7_witness :
  fusion_initialize power_on = Some initialised
  /\ run level_calls initialised = Some level
  /\ m_orientation_bootstrapped level = true
  /\ m_attitude_bootstrapped level = true.
Proof.
  split; [run_it|]. split; [run_it|]. split; [run_it|].
  apply (@C7_orientation_bootstrapped_after_attitude Reference.kernel
           level_calls initialised level); run_it.
Defined.

Lemma C8_witness :
  fusion_update (F16 1 100) magnetometer_only = Some magnetometer_only_updated
  /\ m_have_magnetometer magnetometer_only = true
  /\ m_have_accelerometer magnetometer_only_updated = false
  /\ m_have_magnetometer magnetometer_only_updated = false.
Proof.
  split; [run_it|]. split; [run_it|].
  apply (proj1 (@C8_have_flags Reference.kernel) (F16 1 100) magnetometer_only
           magnetometer_only_updated).
  run_it.
Defined.

Lemma C10_witness :
  update_ready first_sample_disturbed = true
  /\ m_have_accelerometer first_sample_disturbed = true
  /\ m_attitude_bootstrapped first_sample_disturbed = false
  /\ fusion_update (F16 1 100) first_sample_disturbed
     = Some first_sample_updated
  /\ m_attitude_bootstrapped first_sample_updated = true
  /\ axis_row (kf_attitude (bootstrap_attitude first_sample_disturbed))
     = normalised_accelerometer first_sample_disturbed
  /\ rate_row (kf_attitude (bootstrap_attitude first_sample_disturbed))
     = rate_row (kf_attitude first_sample_disturbed)
  /\ kf_attitude first_sample_updated
     = fusion_sanitize_state
         (kalman_correct_uc
            (kf_attitude (bootstrap_attitude first_sample_disturbed))
            (if disturbed first_sample_disturbed
             then gyro_observation first_sample_disturbed
             else accel_observation first_sample_disturbed)).
Proof.
  split; [run_it|]. split; [run_it|]. split; [run_it|]. split; [run_it|].
  apply (proj2 (proj1 C10_bootstrap_ignores_disturbance Reference.kernel
                  (F16 1 100) first_sample_disturbed
                  ltac:(run_it) ltac:(run_it))
           first_sample_updated).
  run_it.
Defined.

End ReferenceFacts.
